(** * A shallow embedding of the Virtual File System (VFS.py, Ver. 2.0)

    The Python class [VirtualFileSystem] keeps every directory and file as a
    mutable Python dict; the working directory, the open-file table and the
    user records all hold references into that object graph.  The model keeps
    the object graph as a heap of nodes ([gmap loc node]) and every reference
    as a location, so the aliasing of the source (an open file is the same
    object as the tree's entry; the working directory is a node of the tree)
    is kept.  Python dicts whose order is observable (directory children, the
    FAT table, the open-file table) are insertion-ordered association lists.

    Python strings are modelled as Rocq [string]s, i.e. code points 0..255;
    [str.encode()] is UTF-8 on those code points.  Methods run in a state and
    exception monad: a Python exception carries the state reached when it was
    raised. *)

From Stdlib Require Import ZArith String Ascii.
From Stdlib Require Import Init.Byte.
From stdpp Require Import base gmap list strings.

Open Scope Z_scope.

(** ** Python dicts with insertion order *)

Definition pydict (V : Type) := list (string * V).

Fixpoint dget {V} (d : pydict V) (k : string) : option V :=
  match d with
  | [] => None
  | (k', v) :: d' => if String.eqb k k' then Some v else dget d' k
  end.

(** [d[k] = v]: an existing key keeps its position, a new key goes last. *)
Fixpoint dset {V} (d : pydict V) (k : string) (v : V) : pydict V :=
  match d with
  | [] => [(k, v)]
  | (k', v') :: d' => if String.eqb k k' then (k', v) :: d' else (k', v') :: dset d' k v
  end.

(** [del d[k]] (callers check membership first). *)
Fixpoint ddel {V} (d : pydict V) (k : string) : pydict V :=
  match d with
  | [] => []
  | (k', v') :: d' => if String.eqb k k' then d' else (k', v') :: ddel d' k
  end.

Definition dmem {V} (d : pydict V) (k : string) : bool :=
  match dget d k with Some _ => true | None => false end.

(** [d1.update(d2)] *)
Definition dupdate {V} (d1 d2 : pydict V) : pydict V :=
  fold_left (fun acc kv => dset acc kv.1 kv.2) d2 d1.

(** ** Python slicing *)

(** Normalisation of a slice bound [k] against a sequence of length [n]. *)
Definition py_norm (n k : Z) : Z :=
  if k <? 0 then Z.max 0 (k + n) else Z.min k n.

(** [s[:k]] for a [str]. *)
Definition str_take (s : string) (k : Z) : string :=
  substring 0 (Z.to_nat (py_norm (Z.of_nat (String.length s)) k)) s.

(** [str.encode()] (UTF-8) on code points 0..255. *)
Definition encode_char (c : ascii) : list byte :=
  let n := nat_of_ascii c in
  if Nat.ltb n 128 then [byte_of_ascii c]
  else [byte_of_ascii (ascii_of_nat (192 + n / 64));
        byte_of_ascii (ascii_of_nat (128 + n mod 64))].

Fixpoint encode (s : string) : list byte :=
  match s with
  | EmptyString => []
  | String c s' => encode_char c ++ encode s'
  end.

(** *** [bytearray]

    The 1 MiB disk is mostly zeros; it is stored as the bytes written so far
    followed by a count of trailing zero bytes.  [ba_to_list] gives the byte
    sequence it stands for, and [ba_setslice] is proved below to be Python's
    slice assignment on that sequence. *)
Record bytearray := mkBA { ba_data : list byte; ba_zeros : N }.

Definition ba_len (b : bytearray) : Z :=
  Z.of_nat (length (ba_data b)) + Z.of_N (ba_zeros b).

Definition ba_to_list (b : bytearray) : list byte :=
  ba_data b ++ replicate (N.to_nat (ba_zeros b)) x00.

(** Python's [a[lo:hi] = r] on a list (step 1): both bounds normalised, and
    an upper bound below the lower one is raised to it. *)
Definition list_setslice (a : list byte) (lo hi : Z) (r : list byte) : list byte :=
  let n := Z.of_nat (length a) in
  let lo' := py_norm n lo in
  let hi' := Z.max lo' (py_norm n hi) in
  take (Z.to_nat lo') a ++ r ++ drop (Z.to_nat hi') a.

Definition ba_setslice (b : bytearray) (lo hi : Z) (r : list byte) : bytearray :=
  let n := ba_len b in
  let lo' := py_norm n lo in
  let hi' := Z.max lo' (py_norm n hi) in
  let d := Z.of_nat (length (ba_data b)) in
  if hi' <=? d
  then mkBA (take (Z.to_nat lo') (ba_data b) ++ r ++ drop (Z.to_nat hi') (ba_data b))
            (ba_zeros b)
  else mkBA (take (Z.to_nat lo') (ba_data b) ++ replicate (Z.to_nat (lo' - d)) x00 ++ r)
            (Z.to_N (n - hi')).

(** [len(b[lo:hi])] *)
Definition ba_slice_len (b : bytearray) (lo hi : Z) : Z :=
  let n := ba_len b in
  Z.max 0 (py_norm n hi - py_norm n lo).

(** Python's [a[lo:hi]] on a list. *)
Definition list_slice (a : list byte) (lo hi : Z) : list byte :=
  let n := Z.of_nat (length a) in
  let lo' := py_norm n lo in
  let hi' := Z.max lo' (py_norm n hi) in
  take (Z.to_nat (hi' - lo')) (drop (Z.to_nat lo') a).

(** [b[lo:hi]] on the compact [bytearray]. *)
Definition ba_slice (b : bytearray) (lo hi : Z) : list byte :=
  let n := ba_len b in
  let lo' := py_norm n lo in
  let hi' := Z.max lo' (py_norm n hi) in
  let d := Z.of_nat (length (ba_data b)) in
  take (Z.to_nat (hi' - lo')) (drop (Z.to_nat lo') (ba_data b))
  ++ replicate (Z.to_nat (hi' - Z.max lo' d)) x00.

(** [bytearray(1024 * 1024)] *)
Definition disk_size : Z := 1024 * 1024.
Definition init_disk : bytearray := mkBA [] (Z.to_N disk_size).

(** ** Objects, state and the method monad *)

Definition loc := positive.

(** A directory dict [{"type": "dir", "children": {...}}] or a file dict
    [{"content": ..., "type": "file"}]. *)
Inductive node :=
| DirNode (children : pydict loc)
| FileNode (content : string).

(** A user record [{"username": u, "password": p, "FAT": <root dir>}]. *)
Record account := mkAccount {
  acc_username : string;
  acc_password : string;
  acc_FAT : loc }.

Record vfs := mkVFS {
  current_user : option string;
  root : pydict account;
  current_dir : option loc;
  open_files : pydict loc;
  path : list string;
  disk_space : bytearray;
  fat_table : pydict (Z * Z);
  next_free_space : Z;
  heap : gmap loc node;
  stdout : list string }.

(** [VirtualFileSystem.__init__] *)
Definition init_vfs : vfs :=
  mkVFS None [] None [] [] init_disk [] 0 ∅ [].

(** Python exceptions the methods can raise.  [Dangling] has no Python
    counterpart: it stands for a reference to an object that does not exist,
    which Python cannot produce. *)
Inductive exn := KeyError | TypeError | ValueError | RecursionError | Dangling.

(** Values returned to the dispatcher: a message, or the list of [dir]. *)
Inductive pyval := VStr (s : string) | VList (l : list string).

Inductive outcome (A : Type) :=
| Return (a : A) (s : vfs)
| Raise (e : exn) (s : vfs).
Arguments Return {A} a s.
Arguments Raise {A} e s.

Definition M (A : Type) : Type := vfs -> outcome A.

#[global] Instance M_ret : MRet M := fun A a s => Return a s.
#[global] Instance M_bind : MBind M := fun A B k m s =>
  match m s with
  | Return a s' => k a s'
  | Raise e s' => Raise e s'
  end.

Definition raise {A} (e : exn) : M A := fun s => Raise e s.
Definition gets {A} (f : vfs -> A) : M A := fun s => Return (f s) s.
Definition modify (f : vfs -> vfs) : M unit := fun s => Return tt (f s).

(** Field updates. *)
Definition set_current_user x (s : vfs) :=
  mkVFS x (root s) (current_dir s) (open_files s) (path s) (disk_space s)
        (fat_table s) (next_free_space s) (heap s) (stdout s).
Definition set_root x (s : vfs) :=
  mkVFS (current_user s) x (current_dir s) (open_files s) (path s) (disk_space s)
        (fat_table s) (next_free_space s) (heap s) (stdout s).
Definition set_current_dir x (s : vfs) :=
  mkVFS (current_user s) (root s) x (open_files s) (path s) (disk_space s)
        (fat_table s) (next_free_space s) (heap s) (stdout s).
Definition set_open_files x (s : vfs) :=
  mkVFS (current_user s) (root s) (current_dir s) x (path s) (disk_space s)
        (fat_table s) (next_free_space s) (heap s) (stdout s).
Definition set_path x (s : vfs) :=
  mkVFS (current_user s) (root s) (current_dir s) (open_files s) x (disk_space s)
        (fat_table s) (next_free_space s) (heap s) (stdout s).
Definition set_disk_space x (s : vfs) :=
  mkVFS (current_user s) (root s) (current_dir s) (open_files s) (path s) x
        (fat_table s) (next_free_space s) (heap s) (stdout s).
Definition set_fat_table x (s : vfs) :=
  mkVFS (current_user s) (root s) (current_dir s) (open_files s) (path s) (disk_space s)
        x (next_free_space s) (heap s) (stdout s).
Definition set_next_free_space x (s : vfs) :=
  mkVFS (current_user s) (root s) (current_dir s) (open_files s) (path s) (disk_space s)
        (fat_table s) x (heap s) (stdout s).
Definition set_heap x (s : vfs) :=
  mkVFS (current_user s) (root s) (current_dir s) (open_files s) (path s) (disk_space s)
        (fat_table s) (next_free_space s) x (stdout s).
Definition set_stdout x (s : vfs) :=
  mkVFS (current_user s) (root s) (current_dir s) (open_files s) (path s) (disk_space s)
        (fat_table s) (next_free_space s) (heap s) x.

(** A new Python dict object. *)
Definition alloc (n : node) : M loc := fun s =>
  let l := fresh (dom (heap s)) in
  Return l (set_heap (<[l := n]> (heap s)) s).

Definition deref (l : loc) : M node := fun s =>
  match heap s !! l with
  | Some n => Return n s
  | None => Raise Dangling s
  end.

(** [node["children"]] *)
Definition children_of (l : loc) : M (pydict loc) :=
  n ← deref l;
  match n with
  | DirNode ch => mret ch
  | FileNode _ => raise KeyError
  end.

(** [self.current_dir["children"]]: subscripting [None] is a [TypeError]. *)
Definition cur_children : M (loc * pydict loc) :=
  o ← gets current_dir;
  match o with
  | None => raise TypeError
  | Some l => ch ← children_of l; mret (l, ch)
  end.

(** Mutating the children dict of directory [l] in place. *)
Definition set_children (l : loc) (ch : pydict loc) : M unit :=
  modify (fun s => set_heap (<[l := DirNode ch]> (heap s)) s).

Definition print (line : string) : M unit :=
  modify (fun s => set_stdout (stdout s ++ [line]) s).

(** ** Formatting integers, as [str(int)] does in an f-string *)

Definition digit_char (d : N) : ascii := ascii_of_N (48 + d).

Fixpoint N_digits (fuel : nat) (n : N) (acc : string) : string :=
  match fuel with
  | O => acc
  | S fuel' =>
      let acc' := String (digit_char (N.modulo n 10)) acc in
      if (N.div n 10 =? 0)%N then acc' else N_digits fuel' (N.div n 10) acc'
  end.

Definition Z_to_string (z : Z) : string :=
  let digits := N_digits (S (N.size_nat (Z.abs_N z))) (Z.abs_N z) EmptyString in
  if z <? 0 then String "-" digits else digits.

(** ** The methods of [VirtualFileSystem] *)

(** [_build_file_paths(current_dir, current_path)]: the full path of every
    file in the tree below [d], keyed by bare file name.  The recursion is
    bounded by [fuel]; it is given the number of objects, more than the depth
    of any tree. *)
Fixpoint _build_file_paths (fuel : nat) (d : loc) (current_path : string)
    : M (pydict string) :=
  match fuel with
  | O => raise RecursionError
  | S fuel' =>
      ch ← children_of d;
      (fix go (items : pydict loc) (file_paths : pydict string) : M (pydict string) :=
         match items with
         | [] => mret file_paths
         | (name, l) :: items' =>
             let p := current_path +:+ "/" +:+ name in
             item ← deref l;
             match item with
             | FileNode _ => go items' (dset file_paths name p)
             | DirNode _ =>
                 sub ← _build_file_paths fuel' l p;
                 go items' (dupdate file_paths sub)
             end
         end) ch []
  end.

(** [self.root[self.current_user]["FAT"]] *)
Definition user_FAT : M loc :=
  u ← gets current_user;
  r ← gets root;
  match u with
  | None => raise KeyError
  | Some u =>
      match dget r u with
      | None => raise KeyError
      | Some acc => mret (acc_FAT acc)
      end
  end.

Fixpoint print_fat_entries (file_paths : pydict string) (entries : pydict (Z * Z)) : M unit :=
  match entries with
  | [] => mret tt
  | (filename, (start, end_)) :: entries' =>
      let p := match dget file_paths filename with Some p => p | None => "Unknown" end in
      print ("  " +:+ filename +:+ ":");;
      print ("    Path: " +:+ p);;
      print ("    Start - " +:+ Z_to_string start +:+ ", End - " +:+ Z_to_string end_);;
      print_fat_entries file_paths entries'
  end.

Definition show_fat_table : M unit :=
  d ← user_FAT;
  h ← gets heap;
  file_paths ← _build_file_paths (S (size h)) d "";
  print "FAT Table:";;
  ft ← gets fat_table;
  print_fat_entries file_paths ft.

Definition used_space (s : vfs) : Z :=
  fold_left (fun acc kv => acc + ba_slice_len (disk_space s) kv.2.1 kv.2.2) (fat_table s) 0.

Definition display_disk_usage : M unit :=
  used ← gets used_space;
  total ← gets (fun s => ba_len (disk_space s));
  print ("Disk usage: " +:+ Z_to_string used +:+ "/" +:+ Z_to_string total +:+ " bytes").

Definition register (username password : string) : M pyval :=
  r ← gets root;
  if dmem r username then mret (VStr "User already exists.")
  else
    l ← alloc (DirNode []);
    modify (fun s => set_root (dset (root s) username (mkAccount username password l)) s);;
    mret (VStr ("User '" +:+ username +:+ "' registered successfully.")).

Definition login (username password : string) : M pyval :=
  r ← gets root;
  match dget r username with
  | Some acc =>
      if String.eqb (acc_password acc) password then
        modify (fun s => set_path [] (set_current_dir (Some (acc_FAT acc))
                           (set_current_user (Some username) s)));;
        mret (VStr ("User '" +:+ username +:+ "' logged in successfully."))
      else mret (VStr "Login failed.")
  | None => mret (VStr "Login failed.")
  end.

(** [if self.current_user:] is false for [None] and for the empty name. *)
Definition logout : M pyval :=
  u ← gets current_user;
  match u with
  | Some user =>
      if String.eqb user "" then mret (VStr "No user currently logged in.")
      else
        modify (fun s => set_path [] (set_current_dir None (set_current_user None s)));;
        mret (VStr ("User '" +:+ user +:+ "' logged out successfully."))
  | None => mret (VStr "No user currently logged in.")
  end.

Definition dir : M pyval :=
  '(_, ch) ← cur_children;
  mret (VList (map fst ch)).

Definition create (filename : string) : M pyval :=
  '(d, ch) ← cur_children;
  if dmem ch filename then mret (VStr "File already exists.")
  else
    l ← alloc (FileNode "");
    '(_, ch) ← cur_children;
    set_children d (dset ch filename l);;
    modify (fun s => set_fat_table
              (dset (fat_table s) filename (next_free_space s, next_free_space s)) s);;
    mret (VStr ("File '" +:+ filename +:+ "' created.")).

(** [bytearray(n)]: a negative count is a [ValueError]. *)
Definition new_bytearray (n : Z) : M (list byte) :=
  if n <? 0 then raise ValueError else mret (replicate (Z.to_nat n) x00).

Definition delete (filename : string) : M pyval :=
  '(d, ch) ← cur_children;
  if dmem ch filename then
    set_children d (ddel ch filename);;
    ft ← gets fat_table;
    match dget ft filename with
    | None => raise KeyError
    | Some (file_start, file_end) =>
        zeros ← new_bytearray (file_end - file_start);
        modify (fun s => set_disk_space (ba_setslice (disk_space s) file_start file_end zeros) s);;
        modify (set_next_free_space file_start);;
        modify (fun s => set_fat_table (ddel (fat_table s) filename) s);;
        show_fat_table;;
        mret (VStr ("File '" +:+ filename +:+ "' deleted."))
    end
  else mret (VStr "File not found.").

Definition open (filename : string) : M pyval :=
  '(_, ch) ← cur_children;
  of ← gets open_files;
  match dget ch filename with
  | Some l =>
      if dmem of filename then mret (VStr "File not found or already opened.")
      else
        modify (fun s => set_open_files (dset (open_files s) filename l) s);;
        mret (VStr ("File '" +:+ filename +:+ "' opened."))
  | None => mret (VStr "File not found or already opened.")
  end.

Definition close (filename : string) : M pyval :=
  of ← gets open_files;
  if dmem of filename then
    modify (fun s => set_open_files (ddel (open_files s) filename) s);;
    mret (VStr ("File '" +:+ filename +:+ "' closed."))
  else mret (VStr "File not opened.").

(** [file["content"]] *)
Definition content_of (l : loc) : M string :=
  n ← deref l;
  match n with
  | FileNode c => mret c
  | DirNode _ => raise KeyError
  end.

Definition read (filename : string) : M pyval :=
  of ← gets open_files;
  match dget of filename with
  | Some l => c ← content_of l; mret (VStr c)
  | None => mret (VStr "File not opened.")
  end.

Definition write (filename content : string) : M pyval :=
  of ← gets open_files;
  match dget of filename with
  | Some l =>
      ft ← gets fat_table;
      match dget ft filename with
      | None => raise KeyError
      | Some (file_start, file_end) =>
          L ← gets (fun s => ba_len (disk_space s));
          let new_end := Z.min (file_end + Z.of_nat (String.length content)) L in
          modify (fun s => set_disk_space
                    (ba_setslice (disk_space s) file_start new_end
                       (encode (str_take content (new_end - file_start)))) s);;
          old ← content_of l;
          modify (fun s => set_heap (<[l := FileNode (old +:+ content)]> (heap s)) s);;
          modify (fun s => set_fat_table (dset (fat_table s) filename (file_start, new_end)) s);;
          modify (set_next_free_space new_end);;
          mret (VStr "Content written to file.")
      end
  | None => mret (VStr "File not opened.")
  end.

(** [_update_current_dir]: re-walk from the user's root along [self.path];
    [self.current_dir] is assigned at every step of the loop. *)
Fixpoint walk_path (names : list string) : M unit :=
  match names with
  | [] => mret tt
  | name :: names' =>
      o ← gets current_dir;
      match o with
      | None => raise TypeError
      | Some d =>
          ch ← children_of d;
          match dget ch name with
          | None => raise KeyError
          | Some l => modify (set_current_dir (Some l));; walk_path names'
          end
      end
  end.

Definition _update_current_dir : M unit :=
  d ← user_FAT;
  modify (set_current_dir (Some d));;
  p ← gets path;
  walk_path p.

(** [node["type"] == "dir"] *)
Definition is_dir (n : node) : bool :=
  match n with DirNode _ => true | FileNode _ => false end.

Definition cd (dirname : string) : M pyval :=
  if String.eqb dirname ".." then
    p ← gets path;
    match p with
    | [] => mret (VStr "Already at the root directory.")
    | _ :: _ =>
        modify (set_path (removelast p));;
        _update_current_dir;;
        mret (VStr "Returned to the parent directory.")
    end
  else
    '(_, ch) ← cur_children;
    match dget ch dirname with
    | Some l =>
        n ← deref l;
        if is_dir n then
          modify (fun s => set_path (path s ++ [dirname]) s);;
          _update_current_dir;;
          mret (VStr ("Changed directory to '" +:+ dirname +:+ "'."))
        else mret (VStr "Directory not found.")
    | None => mret (VStr "Directory not found.")
    end.

Definition rd (dirname : string) : M pyval :=
  '(d, ch) ← cur_children;
  match dget ch dirname with
  | Some l =>
      n ← deref l;
      if is_dir n then
        set_children d (ddel ch dirname);;
        mret (VStr ("Directory '" +:+ dirname +:+ "' deleted."))
      else mret (VStr "Directory not found or is a file.")
  | None => mret (VStr "Directory not found or is a file.")
  end.

Definition md (dirname : string) : M pyval :=
  '(d, ch) ← cur_children;
  if dmem ch dirname then mret (VStr "Directory already exists.")
  else
    l ← alloc (DirNode []);
    '(_, ch) ← cur_children;
    set_children d (dset ch dirname l);;
    mret (VStr ("Directory '" +:+ dirname +:+ "' created.")).

(** ** The command dispatcher *)

(** [str.isspace()] on code points 0..255. *)
Definition is_space (c : ascii) : bool :=
  let n := nat_of_ascii c in
  (Nat.leb 9 n && Nat.leb n 13) || (Nat.leb 28 n && Nat.leb n 32)
  || Nat.eqb n 133 || Nat.eqb n 160.

(** [str.split()] with no separator: maximal runs of non-space characters. *)
Fixpoint split_go (s : string) (cur : string) (acc : list string) : list string :=
  match s with
  | EmptyString => if String.eqb cur "" then rev acc else rev (cur :: acc)
  | String c s' =>
      if is_space c then
        if String.eqb cur "" then split_go s' "" acc else split_go s' "" (cur :: acc)
      else split_go s' (cur +:+ String c EmptyString) acc
  end.

Definition split (s : string) : list string := split_go s "" [].

(** [str.lower()] on code points 0..255: A-Z and the Latin-1 capitals
    U+00C0..U+00DE except U+00D7. *)
Definition lower_char (c : ascii) : ascii :=
  let n := nat_of_ascii c in
  if (Nat.leb 65 n && Nat.leb n 90) || (Nat.leb 192 n && Nat.leb n 222 && negb (Nat.eqb n 215))
  then ascii_of_nat (n + 32) else c.

Fixpoint lower (s : string) : string :=
  match s with
  | EmptyString => EmptyString
  | String c s' => String (lower_char c) (lower s')
  end.

Definition arg (args : list string) (i : nat) : string := default "" (args !! i).

Definition invalid_msg : string := "Invalid command or incorrect number of arguments.".

Definition process_command (command : string) : M pyval :=
  let args := split command in
  match args with
  | [] => mret (VStr "No command entered.")
  | a0 :: _ =>
      let cmd := lower a0 in
      let n := length args in
      if String.eqb cmd "diskusage" then display_disk_usage;; mret (VStr "")
      else if String.eqb cmd "showfat" then show_fat_table;; mret (VStr "")
      else if String.eqb cmd "register" && Nat.eqb n 3 then register (arg args 1) (arg args 2)
      else if String.eqb cmd "login" && Nat.eqb n 3 then login (arg args 1) (arg args 2)
      else if String.eqb cmd "logout" then logout
      else if String.eqb cmd "dir" then dir
      else if String.eqb cmd "create" && Nat.eqb n 2 then create (arg args 1)
      else if String.eqb cmd "del" && Nat.eqb n 2 then delete (arg args 1)
      else if String.eqb cmd "open" && Nat.eqb n 2 then open (arg args 1)
      else if String.eqb cmd "close" && Nat.eqb n 2 then close (arg args 1)
      else if String.eqb cmd "read" && Nat.eqb n 2 then read (arg args 1)
      else if String.eqb cmd "write" && Nat.leb 3 n
        then write (arg args 1) (String.concat " " (drop 2 args))
      else if String.eqb cmd "cd" && Nat.eqb n 2 then cd (arg args 1)
      else if String.eqb cmd "md" && Nat.eqb n 2 then md (arg args 1)
      else if String.eqb cmd "rd" && Nat.eqb n 2 then rd (arg args 1)
      else mret (VStr invalid_msg)
  end.

(** Running a session: a sequence of command lines from [init_vfs]; an
    uncaught exception ends the program. *)
Fixpoint run_commands (cmds : list string) (s : vfs) : outcome (list pyval) :=
  match cmds with
  | [] => Return [] s
  | c :: cmds' =>
      match process_command c s with
      | Return v s' =>
          match run_commands cmds' s' with
          | Return vs s'' => Return (v :: vs) s''
          | Raise e s'' => Raise e s''
          end
      | Raise e s' => Raise e s'
      end
  end.

Inductive reachable : vfs -> Prop :=
| reachable_init : reachable init_vfs
| reachable_step s c v s' :
    reachable s -> process_command c s = Return v s' -> reachable s'.

Definition final_state {A} (o : outcome A) : vfs :=
  match o with Return _ s => s | Raise _ s => s end.

(** Typed results, for stating outcomes of concrete runs. *)
Definition result_of {A} (o : outcome A) : option A :=
  match o with Return a _ => Some a | Raise _ _ => None end.

Definition raised {A} (o : outcome A) : option exn :=
  match o with Return _ _ => None | Raise e _ => Some e end.

(** [create(f); open(f); write(f, s); read(f)] *)
Definition create_open_write_read (f s : string) : M pyval :=
  create f;; open f;; write f s;; read f.

(** ** Concrete sessions *)

Definition session (cmds : list string) : vfs := final_state (run_commands cmds init_vfs).

(** User [u] registered and logged in, at the root of its tree. *)
Definition logged_in_cmds : list string := ["register u p"; "login u p"].

(** File [a] opened and written in the root, then the working directory
    moved to the subdirectory [d]. *)
Definition c1_cmds : list string :=
  ["register u p"; "login u p"; "md d"; "create a"; "open a"; "write a x"; "cd d"].

(** Two files created back to back, then each written one byte. *)
Definition c3_cmds : list string :=
  ["register u p"; "login u p"; "create a"; "create b"; "open a"; "write a x";
   "open b"; "write b y"].

(** The FAT bookkeeping is non-negative: the free-space cursor and every
    recorded [(start, end)]. *)
Definition fat_ok (s : vfs) : Prop :=
  0 <= next_free_space s /\ Forall (fun kv => 0 <= kv.2.1 /\ 0 <= kv.2.2) (fat_table s).

(** Two writes to the same file: the second is where [write] first meets
    a non-empty FAT range. *)
Definition c4_cmds : list string :=
  ["register u p"; "login u p"; "create a"; "open a"; "write a xx"; "write a yy"].

(** The state [delete] leaves before it prints the FAT: [f] unlinked from
    directory [d], [disk_space[start:end]] overwritten with zeros, the cursor
    moved back to [start] and [f]'s FAT entry removed. *)
Definition delete_post (f : string) (d : loc) (ch : pydict loc) (file_start file_end : Z)
    (s : vfs) : vfs :=
  set_fat_table (ddel (fat_table s) f)
    (set_next_free_space file_start
       (set_disk_space (ba_setslice (disk_space s) file_start file_end
                          (replicate (Z.to_nat (file_end - file_start)) x00))
          (set_heap (<[d := DirNode (ddel ch f)]> (heap s)) s))).

(** The directory reached from [d] along [names], following
    [current_dir = current_dir["children"][dir]] in a pure form. *)
Fixpoint resolve (h : gmap loc node) (d : loc) (names : list string) : option loc :=
  match names with
  | [] => Some d
  | name :: names' =>
      match h !! d with
      | Some (DirNode ch) =>
          match dget ch name with
          | Some l => resolve h l names'
          | None => None
          end
      | _ => None
      end
  end.

(** A computation whose run, returned or raised, changes at most the
    captured output. *)
Definition prints_only {A} (m : M A) : Prop :=
  forall s, exists o, final_state (m s) = set_stdout o s.

(** The FAT is a dict: no file name has two entries. *)
Definition fat_keys_unique (s : vfs) : Prop := NoDup (map fst (fat_table s)).

(** A file of two bytes, written and still open. *)
Definition c5_cmds : list string :=
  ["register u p"; "login u p"; "create a"; "open a"; "write a xy"].

(** One level down: [path] is [["d"]]. *)
Definition c6_cmds : list string := ["register u p"; "login u p"; "md d"; "cd d"].

(** The token counts [process_command] dispatches on, per lowercased
    command name: [logout], [dir], [diskusage] and [showfat] take any number
    of tokens, [register] and [login] exactly three, [write] at least three,
    the other eight commands exactly two; any other name is refused. *)
Definition dispatch_accepts (cmd : string) (n : nat) : bool :=
  if String.eqb cmd "diskusage" || String.eqb cmd "showfat"
     || String.eqb cmd "logout" || String.eqb cmd "dir" then true
  else if String.eqb cmd "register" || String.eqb cmd "login" then Nat.eqb n 3
  else if String.eqb cmd "write" then Nat.leb 3 n
  else if String.eqb cmd "create" || String.eqb cmd "del" || String.eqb cmd "open"
          || String.eqb cmd "close" || String.eqb cmd "read" || String.eqb cmd "cd"
          || String.eqb cmd "md" || String.eqb cmd "rd" then Nat.eqb n 2
  else false.

(** A command name nothing dispatches on, with an argument. *)
Definition c7_unknown : string := "frobnicate x".

(** The session [cmds] runs from [init_vfs] without an uncaught
    exception and ends in a state satisfying [P]. *)
Definition runs_to (cmds : list string) (P : vfs -> Prop) : Prop :=
  match run_commands cmds init_vfs with
  | Return _ s => P s
  | Raise _ _ => False
  end.

(** A directory made in the home directory of a logged-in user. *)
Definition c2_cmds : list string := ["register u p"; "login u p"; "md d"].

(** File [a] written one byte at a time, 1448 times: every write after the
    first assigns one byte to the whole range [disk_space[0:end+1]], so the
    buffer shrinks by [end] bytes each time, to 948 bytes.  File [b] is then
    created at the cursor 1448 and written: [new_end] is clipped to the
    buffer length 948, below [file_start], and nothing is stored. *)
Definition shrink_cmds : list string :=
  ["register u p"; "login u p"; "create a"; "open a"]
  ++ List.repeat "write a x" 1448
  ++ ["create b"; "open b"; "write b z"].

(** * Lemmas *)

(** ** Dicts *)

Lemma dget_dset_eq {V} (d : pydict V) k v : dget (dset d k v) k = Some v.
Proof.
  induction d as [|[k' v'] d IH]; simpl; [by rewrite String.eqb_refl|].
  destruct (String.eqb k k') eqn:E; simpl; rewrite E; auto.
Qed.

Lemma dget_dset_ne {V} (d : pydict V) k k' v : k <> k' -> dget (dset d k v) k' = dget d k'.
Proof.
  intros Hne. induction d as [|[k0 v0] d IH]; simpl.
  - destruct (String.eqb k' k) eqn:E; [apply String.eqb_eq in E; congruence|done].
  - destruct (String.eqb k k0) eqn:E; simpl.
    + apply String.eqb_eq in E; subst.
      destruct (String.eqb k' k0) eqn:E'; [apply String.eqb_eq in E'; congruence|done].
    + destruct (String.eqb k' k0); auto.
Qed.

Lemma dget_ddel_eq_None {V} (d : pydict V) k :
  NoDup (map fst d) -> dget (ddel d k) k = None.
Proof.
  induction d as [|[k0 v0] d IH]; simpl; intros Hnd; [done|].
  apply NoDup_cons in Hnd as [Hnin Hnd].
  destruct (String.eqb k k0) eqn:E; simpl.
  - apply String.eqb_eq in E; subst.
    clear IH. induction d as [|[k1 v1] d IH']; simpl; [done|].
    destruct (String.eqb k0 k1) eqn:E1.
    + apply String.eqb_eq in E1; subst. simpl in Hnin. set_solver.
    + apply IH'; [set_solver | by apply NoDup_cons in Hnd as [_ ?]].
  - rewrite E. auto.
Qed.

Lemma dget_ddel_ne {V} (d : pydict V) k k' : k <> k' -> dget (ddel d k) k' = dget d k'.
Proof.
  intros Hne. induction d as [|[k0 v0] d IH]; simpl; [done|].
  destruct (String.eqb k k0) eqn:E; simpl.
  - apply String.eqb_eq in E; subst.
    destruct (String.eqb k' k0) eqn:E'; [apply String.eqb_eq in E'; congruence|done].
  - destruct (String.eqb k' k0); auto.
Qed.

Lemma dmem_dget {V} (d : pydict V) k : dmem d k = false <-> dget d k = None.
Proof. unfold dmem. destruct (dget d k); split; congruence. Qed.

(** ** Unfolding the monad *)

Ltac mon := unfold mbind, mret, M_bind, M_ret, gets, modify, raise in *; cbn in *.

Lemma fresh_loc_ne (h : gmap loc node) d n :
  h !! d = Some n -> fresh (dom h) <> d.
Proof.
  intros Hd Heq. pose proof (is_fresh (dom h)) as Hf. rewrite Heq in Hf.
  apply Hf, elem_of_dom. eauto.
Qed.

Lemma fresh_loc_None (h : gmap loc node) : h !! fresh (dom h) = None.
Proof. apply not_elem_of_dom, is_fresh. Qed.

(** ** The methods on the paths they take *)

Definition create_post (f : string) (d : loc) (ch : pydict loc) (s : vfs) : vfs :=
  let l := fresh (dom (heap s)) in
  set_fat_table (dset (fat_table s) f (next_free_space s, next_free_space s))
    (set_heap (<[d := DirNode (dset ch f l)]> (<[l := FileNode ""]> (heap s))) s).

Lemma create_spec s d ch f :
  current_dir s = Some d -> heap s !! d = Some (DirNode ch) -> dget ch f = None ->
  create f s = Return (VStr ("File '" +:+ f +:+ "' created.")) (create_post f d ch s).
Proof.
  intros Hc Hd Hf. unfold create, cur_children, children_of, deref, alloc, set_children.
  mon. rewrite Hc, Hd. cbn. rewrite (proj2 (dmem_dget ch f) Hf). cbn.
  rewrite Hc. cbn. rewrite lookup_insert_ne; [|by eapply fresh_loc_ne]. rewrite Hd. cbn. reflexivity.
Qed.

Lemma open_spec s d ch f l :
  current_dir s = Some d -> heap s !! d = Some (DirNode ch) -> dget ch f = Some l ->
  dget (open_files s) f = None ->
  open f s = Return (VStr ("File '" +:+ f +:+ "' opened."))
                    (set_open_files (dset (open_files s) f l) s).
Proof.
  intros Hc Hd Hf Ho. unfold open, cur_children, children_of, deref.
  mon. rewrite Hc, Hd. cbn. rewrite Hf, (proj2 (dmem_dget _ f) Ho). reflexivity.
Qed.

Definition write_post (f t : string) (l : loc) (c : string) (file_start file_end : Z)
    (s : vfs) : vfs :=
  let new_end := Z.min (file_end + Z.of_nat (String.length t)) (ba_len (disk_space s)) in
  set_next_free_space new_end
    (set_fat_table (dset (fat_table s) f (file_start, new_end))
       (set_heap (<[l := FileNode (c +:+ t)]> (heap s))
          (set_disk_space (ba_setslice (disk_space s) file_start new_end
                             (encode (str_take t (new_end - file_start)))) s))).

Lemma write_spec s f t l c file_start file_end :
  dget (open_files s) f = Some l -> dget (fat_table s) f = Some (file_start, file_end) ->
  heap s !! l = Some (FileNode c) ->
  write f t s = Return (VStr "Content written to file.")
                       (write_post f t l c file_start file_end s).
Proof.
  intros Ho Hfat Hl. unfold write, content_of, deref. mon.
  rewrite Ho, Hfat. cbn. rewrite Hl. reflexivity.
Qed.

Lemma read_spec s f l c :
  dget (open_files s) f = Some l -> heap s !! l = Some (FileNode c) ->
  read f s = Return (VStr c) s.
Proof.
  intros Ho Hl. unfold read, content_of, deref. mon. rewrite Ho, Hl. reflexivity.
Qed.

Lemma close_spec s f :
  dget (open_files s) f <> None ->
  close f s = Return (VStr ("File '" +:+ f +:+ "' closed."))
                     (set_open_files (ddel (open_files s) f) s).
Proof.
  intros Ho. unfold close, dmem. mon. destruct (dget (open_files s) f); [done|congruence].
Qed.

Lemma bind_Return {A B} (m : M A) (k : A -> M B) s a s' :
  m s = Return a s' -> (m ≫= k) s = k a s'.
Proof. intros H. unfold mbind, M_bind. by rewrite H. Qed.

Lemma bind_Raise {A B} (m : M A) (k : A -> M B) s e s' :
  m s = Raise e s' -> (m ≫= k) s = Raise e s'.
Proof. intros H. unfold mbind, M_bind. by rewrite H. Qed.

(** ** C1 *)

(** C1 (amended): with a user logged in (the working directory is a
    directory node), for a name [f] that is neither in the working directory
    nor in the open-file table, [create(f); open(f); write(f, s); read(f)]
    returns exactly [s], whatever the length of [s]. *)
Theorem C1_round_trip_fresh s d ch f t :
  current_dir s = Some d -> heap s !! d = Some (DirNode ch) ->
  dget ch f = None -> dget (open_files s) f = None ->
  result_of (create_open_write_read f t s) = Some (VStr t).
Proof.
  intros Hc Hd Hf Ho. unfold create_open_write_read.
  rewrite (bind_Return _ _ _ _ _ (create_spec s d ch f Hc Hd Hf)).
  set (l := fresh (dom (heap s))).
  assert (Hld : l <> d) by (eapply fresh_loc_ne; eauto).
  rewrite (bind_Return _ _ _ _ _
    (open_spec (create_post f d ch s) d (dset ch f l) f l Hc
       ltac:(cbn; by rewrite lookup_insert_eq) (dget_dset_eq _ _ _) Ho)).
  rewrite (bind_Return _ _ _ _ _
    (write_spec (set_open_files (dset (open_files (create_post f d ch s)) f l)
                                (create_post f d ch s)) f t l "" (next_free_space s) (next_free_space s)
       ltac:(unfold create_post; cbn; apply dget_dset_eq)
       ltac:(unfold create_post; cbn; apply dget_dset_eq)
       ltac:(unfold create_post; cbn; rewrite lookup_insert_ne by done;
             apply lookup_insert_eq))).
  rewrite (read_spec _ f l t); [done| |].
  - unfold write_post, create_post. cbn. apply dget_dset_eq.
  - unfold write_post, create_post. cbn. apply lookup_insert_eq.
Qed.

Lemma C1_round_trip_fresh_witness :
  result_of (create_open_write_read "f" "hello" (session logged_in_cmds))
  = Some (VStr "hello").
Proof.
  apply (C1_round_trip_fresh (session logged_in_cmds) 1%positive [] "f" "hello");
    vm_compute; reflexivity.
Defined.

(** C1 (counterexample): after [a] is opened in the root and the session
    moves into [d], [create("a")] succeeds there, yet the round trip with
    [s = "y"] reads back ["xy"]: [open] fails because the open-file table is
    keyed by the bare name, and [write]/[read] reach the root's [a]. *)
Lemma C1_counterexample :
  result_of (run_commands c1_cmds init_vfs) <> None /\
  result_of (create "a" (session c1_cmds)) = Some (VStr "File 'a' created.") /\
  result_of (create_open_write_read "a" "y" (session c1_cmds)) = Some (VStr "xy").
Proof. vm_compute. split; [discriminate | split; reflexivity]. Qed.

(** ** No login guard *)

(** When no user is logged in (as in
    the initial state), [dir], [create], [delete], [open], [md], [rd] and [cd]
    of any name other than [".."] raise a fatal [TypeError] (they subscript
    [self.current_dir], which is [None]), and [show_fat_table] raises a fatal
    [KeyError] ([self.root[None]]); none of them returns an outcome value. *)
Theorem no_login_guard s :
  current_dir s = None -> current_user s = None ->
  dir s = Raise TypeError s /\
  (forall f, create f s = Raise TypeError s) /\
  (forall f, delete f s = Raise TypeError s) /\
  (forall f, open f s = Raise TypeError s) /\
  (forall f, md f s = Raise TypeError s) /\
  (forall f, rd f s = Raise TypeError s) /\
  (forall f, f <> ".." -> cd f s = Raise TypeError s) /\
  show_fat_table s = Raise KeyError s.
Proof.
  intros Hc Hu.
  unfold dir, create, delete, open, md, rd, cd, show_fat_table, user_FAT, cur_children.
  mon. rewrite Hc, Hu.
  repeat split; try reflexivity.
  intros f Hf. destruct (String.eqb f "..") eqn:E; [apply String.eqb_eq in E; done|].
  mon. rewrite Hc. reflexivity.
Qed.

Lemma no_login_guard_witness :
  dir init_vfs = Raise TypeError init_vfs /\
  show_fat_table init_vfs = Raise KeyError init_vfs.
Proof.
  destruct (no_login_guard init_vfs eq_refl eq_refl)
    as (H1 & _ & _ & _ & _ & _ & _ & H8).
  split; [exact H1 | exact H8].
Defined.

(** ** What the helper operations change *)

Lemma deref_ro l s a s' : deref l s = Return a s' -> s' = s.
Proof. unfold deref. destruct (heap s !! l); congruence. Qed.

Lemma children_of_ro l s a s' : children_of l s = Return a s' -> s' = s.
Proof.
  unfold children_of. mon. unfold deref. destruct (heap s !! l) as [[]|]; congruence.
Qed.

Lemma content_of_ro l s a s' : content_of l s = Return a s' -> s' = s.
Proof.
  unfold content_of. mon. unfold deref. destruct (heap s !! l) as [[]|]; congruence.
Qed.

Lemma cur_children_ro s a s' : cur_children s = Return a s' -> s' = s.
Proof.
  unfold cur_children. mon. destruct (current_dir s) as [l|]; [|congruence].
  destruct (children_of l s) eqn:E; [|congruence].
  apply children_of_ro in E. congruence.
Qed.

Lemma user_FAT_ro s a s' : user_FAT s = Return a s' -> s' = s.
Proof.
  unfold user_FAT. mon. destruct (current_user s); [|congruence].
  destruct (dget _ _); congruence.
Qed.

Lemma new_bytearray_ro n s a s' : new_bytearray n s = Return a s' -> s' = s.
Proof. unfold new_bytearray. mon. destruct (n <? 0); congruence. Qed.

Lemma alloc_eq n s l s' :
  alloc n s = Return l s' -> l = fresh (dom (heap s)) /\ s' = set_heap (<[l := n]> (heap s)) s.
Proof. unfold alloc. intros H. injection H as <- <-. done. Qed.

Lemma build_file_paths_ro fuel d cp s a s' :
  _build_file_paths fuel d cp s = Return a s' -> s' = s.
Proof.
  revert d cp a s'. induction fuel as [|fuel IH]; intros d cp a s' H; [discriminate|].
  cbn in H. unfold mbind, M_bind in H.
  destruct (children_of d s) as [ch s0|] eqn:E; [|discriminate].
  apply children_of_ro in E. subst s0.
  revert H. generalize (@nil (string * string)). revert a s'.
  induction ch as [|[name l] ch IHch]; intros a s' acc H.
  - unfold mret, M_ret in H. congruence.
  - unfold mbind, M_bind in H.
    destruct (deref l s) as [n s0|] eqn:E; [|discriminate].
    apply deref_ro in E. subst s0.
    destruct n as [ch'|c].
    + destruct (_build_file_paths fuel l _ s) as [sub s0|] eqn:E; [|discriminate].
      apply IH in E. subst s0. eapply IHch; eauto.
    + eapply IHch; eauto.
Qed.

(** Printing changes only the captured output. *)
Definition only_stdout {A} (m : M A) : Prop :=
  forall s a s', m s = Return a s' -> s' = set_stdout (stdout s') s.

Lemma only_stdout_bind {A B} (m : M A) (k : A -> M B) :
  only_stdout m -> (forall a, only_stdout (k a)) -> only_stdout (m ≫= k).
Proof.
  intros Hm Hk s b s' H. unfold mbind, M_bind in H.
  destruct (m s) as [a s0|] eqn:E; [|discriminate].
  apply Hm in E. apply Hk in H. rewrite H, E. by destruct s.
Qed.

Lemma only_stdout_ret {A} (a : A) : only_stdout (mret a).
Proof. intros s b s' H. injection H as _ <-. by destruct s. Qed.

Lemma only_stdout_gets {A} (f : vfs -> A) : only_stdout (gets f).
Proof. intros s b s' H. injection H as _ <-. by destruct s. Qed.

Lemma only_stdout_print line : only_stdout (print line).
Proof. intros s b s' H. injection H as _ <-. by destruct s. Qed.

Lemma only_stdout_ro {A} (m : M A) :
  (forall s a s', m s = Return a s' -> s' = s) -> only_stdout m.
Proof. intros Hro s a s' H. apply Hro in H. subst. by destruct s. Qed.

Lemma only_stdout_print_fat_entries fp es : only_stdout (print_fat_entries fp es).
Proof.
  induction es as [|[fn [st en]] es IH]; cbn; [apply only_stdout_ret|].
  repeat (apply only_stdout_bind; intros; [apply only_stdout_print|]). apply IH.
Qed.

Lemma only_stdout_show_fat_table : only_stdout show_fat_table.
Proof.
  unfold show_fat_table.
  apply only_stdout_bind; [apply only_stdout_ro, user_FAT_ro|intros d].
  apply only_stdout_bind; [apply only_stdout_gets|intros h].
  apply only_stdout_bind; [apply only_stdout_ro, build_file_paths_ro|intros fp].
  apply only_stdout_bind; [apply only_stdout_print|intros _].
  apply only_stdout_bind; [apply only_stdout_gets|intros ft].
  apply only_stdout_print_fat_entries.
Qed.

Lemma only_stdout_display_disk_usage : only_stdout display_disk_usage.
Proof.
  unfold display_disk_usage.
  apply only_stdout_bind; [apply only_stdout_gets|intros u].
  apply only_stdout_bind; [apply only_stdout_gets|intros t].
  apply only_stdout_print.
Qed.

(** Walking the path changes only the working directory. *)
Lemma walk_path_cd ps s a s' :
  walk_path ps s = Return a s' -> s' = set_current_dir (current_dir s') s.
Proof.
  revert s. induction ps as [|p ps IH]; intros s H; cbn in H.
  - unfold mret, M_ret in H. injection H as _ <-. by destruct s.
  - mon. destruct (current_dir s) as [d|]; [|discriminate].
    destruct (children_of d s) as [ch s0|] eqn:E; [|discriminate].
    apply children_of_ro in E. subst s0.
    destruct (dget ch p) as [l|]; [|discriminate].
    apply IH in H. rewrite H. by destruct s.
Qed.

Lemma update_current_dir_cd s a s' :
  _update_current_dir s = Return a s' -> s' = set_current_dir (current_dir s') s.
Proof.
  unfold _update_current_dir. mon.
  destruct (user_FAT s) as [d s0|] eqn:E; [|discriminate].
  apply user_FAT_ro in E. subst s0.
  intros H. apply walk_path_cd in H. rewrite H. by destruct s.
Qed.

Lemma show_fat_table_frame s a s' :
  show_fat_table s = Return a s' -> exists o, s' = set_stdout o s.
Proof. intros H. apply only_stdout_show_fat_table in H. eauto. Qed.

Lemma display_disk_usage_frame s a s' :
  display_disk_usage s = Return a s' -> exists o, s' = set_stdout o s.
Proof. intros H. apply only_stdout_display_disk_usage in H. eauto. Qed.

Lemma update_current_dir_frame s a s' :
  _update_current_dir s = Return a s' -> exists x, s' = set_current_dir x s.
Proof. intros H. apply update_current_dir_cd in H. eauto. Qed.

(** Case analysis of a method run that returned: every helper call is
    replaced by what it does to the state. *)
Ltac frame E :=
  first
    [ apply cur_children_ro in E; subst
    | apply children_of_ro in E; subst
    | apply deref_ro in E; subst
    | apply content_of_ro in E; subst
    | apply user_FAT_ro in E; subst
    | apply new_bytearray_ro in E; subst
    | apply build_file_paths_ro in E; subst
    | apply alloc_eq in E as [-> ->]
    | apply show_fat_table_frame in E as [? ->]
    | apply display_disk_usage_frame in E as [? ->]
    | apply update_current_dir_frame in E as [? ->] ].

Ltac split_run H :=
  repeat (cbn -[String.eqb removelast app lower split Nat.eqb Nat.leb length arg drop] in H;
    match type of H with
    | Raise _ _ = Return _ _ => discriminate H
    | Return _ _ = Return _ _ => injection H as <- <-
    | context [match ?x with _ => _ end] =>
        lazymatch x with context [match _ with _ => _ end] => fail | _ => idtac end;
        let E := fresh "E" in destruct x eqn:E; try frame E
    end).

Ltac unfold_method H :=
  unfold register, login, logout, dir, create, delete, open, close, read, write,
    cd, rd, md, set_children, print in H;
  unfold mbind, M_bind, mret, M_ret, gets, modify, raise in H.

(** ** More dict lemmas *)

Lemma dget_dset {V} (d : pydict V) k k' v :
  dget (dset d k v) k' = if String.eqb k' k then Some v else dget d k'.
Proof.
  destruct (String.eqb k' k) eqn:E.
  - apply String.eqb_eq in E. subst. apply dget_dset_eq.
  - apply dget_dset_ne. intros ->. by rewrite String.eqb_refl in E.
Qed.

Lemma dget_In {V} (d : pydict V) k v : dget d k = Some v -> In (k, v) d.
Proof.
  induction d as [|[k' v'] d IH]; simpl; [done|].
  destruct (String.eqb k k') eqn:E; intros H.
  - apply String.eqb_eq in E. injection H as <-. subst. by left.
  - right. auto.
Qed.

Lemma Forall_dset {V} (P : V -> Prop) (d : pydict V) k v :
  Forall (fun kv => P kv.2) d -> P v -> Forall (fun kv => P kv.2) (dset d k v).
Proof.
  induction d as [|[k' v'] d IH]; intros Hd Hv; simpl; [by constructor|].
  inversion Hd; subst. destruct (String.eqb k k'); constructor; auto.
Qed.

Lemma Forall_ddel {V} (P : V -> Prop) (d : pydict V) k :
  Forall (fun kv => P kv.2) d -> Forall (fun kv => P kv.2) (ddel d k).
Proof.
  induction d as [|[k' v'] d IH]; intros Hd; simpl; [done|].
  inversion Hd; subst. destruct (String.eqb k k'); [done|]. constructor; auto.
Qed.

Lemma ba_len_nonneg b : 0 <= ba_len b.
Proof. unfold ba_len. lia. Qed.

(** ** The FAT stays non-negative *)

Ltac fat_ok_solve :=
  unfold fat_ok in *; cbn -[String.eqb] in *;
  repeat match goal with
  | H : _ /\ _ |- _ => destruct H
  | E : dget (fat_table _) _ = Some (_, _), HF : Forall _ (fat_table _) |- _ =>
      let Hin := fresh "Hin" in
      pose proof (proj1 (List.Forall_forall _ _) HF _ (dget_In _ _ _ E)) as Hin;
      cbn in Hin; clear E
  | |- context [ba_len ?b] =>
      lazymatch goal with
      | _ : 0 <= ba_len b |- _ => fail
      | _ => pose proof (ba_len_nonneg b)
      end
  end;
  split; [lia|];
  repeat first [ apply (Forall_dset (fun v => 0 <= v.1 /\ 0 <= v.2))
                | apply (Forall_ddel (fun v => 0 <= v.1 /\ 0 <= v.2)) ];
  try assumption; cbn; lia.

Ltac method_fat_ok :=
  intros HI H; unfold_method H; split_run H; fat_ok_solve.

Lemma register_fat_ok u p s v s' : fat_ok s -> register u p s = Return v s' -> fat_ok s'.
Proof. method_fat_ok. Qed.
Lemma login_fat_ok u p s v s' : fat_ok s -> login u p s = Return v s' -> fat_ok s'.
Proof. method_fat_ok. Qed.
Lemma logout_fat_ok s v s' : fat_ok s -> logout s = Return v s' -> fat_ok s'.
Proof. method_fat_ok. Qed.
Lemma dir_fat_ok s v s' : fat_ok s -> dir s = Return v s' -> fat_ok s'.
Proof. method_fat_ok. Qed.
Lemma create_fat_ok f s v s' : fat_ok s -> create f s = Return v s' -> fat_ok s'.
Proof. method_fat_ok. Qed.
Lemma delete_fat_ok f s v s' : fat_ok s -> delete f s = Return v s' -> fat_ok s'.
Proof. method_fat_ok. Qed.
Lemma open_fat_ok f s v s' : fat_ok s -> open f s = Return v s' -> fat_ok s'.
Proof. method_fat_ok. Qed.
Lemma close_fat_ok f s v s' : fat_ok s -> close f s = Return v s' -> fat_ok s'.
Proof. method_fat_ok. Qed.
Lemma read_fat_ok f s v s' : fat_ok s -> read f s = Return v s' -> fat_ok s'.
Proof. method_fat_ok. Qed.
Lemma write_fat_ok f c s v s' : fat_ok s -> write f c s = Return v s' -> fat_ok s'.
Proof. method_fat_ok. Qed.
Lemma cd_fat_ok f s v s' : fat_ok s -> cd f s = Return v s' -> fat_ok s'.
Proof. method_fat_ok. Qed.
Lemma rd_fat_ok f s v s' : fat_ok s -> rd f s = Return v s' -> fat_ok s'.
Proof. method_fat_ok. Qed.
Lemma md_fat_ok f s v s' : fat_ok s -> md f s = Return v s' -> fat_ok s'.
Proof. method_fat_ok. Qed.

(** ** The dispatcher keeps what every method keeps *)

Section Dispatch.

Variable P : vfs -> Prop.
Hypothesis P_stdout : forall s o, P s -> P (set_stdout o s).
Hypothesis P_register : forall u p s v s', P s -> register u p s = Return v s' -> P s'.
Hypothesis P_login : forall u p s v s', P s -> login u p s = Return v s' -> P s'.
Hypothesis P_logout : forall s v s', P s -> logout s = Return v s' -> P s'.
Hypothesis P_dir : forall s v s', P s -> dir s = Return v s' -> P s'.
Hypothesis P_create : forall f s v s', P s -> create f s = Return v s' -> P s'.
Hypothesis P_delete : forall f s v s', P s -> delete f s = Return v s' -> P s'.
Hypothesis P_open : forall f s v s', P s -> open f s = Return v s' -> P s'.
Hypothesis P_close : forall f s v s', P s -> close f s = Return v s' -> P s'.
Hypothesis P_read : forall f s v s', P s -> read f s = Return v s' -> P s'.
Hypothesis P_write : forall f c s v s', P s -> write f c s = Return v s' -> P s'.
Hypothesis P_cd : forall f s v s', P s -> cd f s = Return v s' -> P s'.
Hypothesis P_rd : forall f s v s', P s -> rd f s = Return v s' -> P s'.
Hypothesis P_md : forall f s v s', P s -> md f s = Return v s' -> P s'.

Lemma process_command_preserves c s v s' :
  P s -> process_command c s = Return v s' -> P s'.
Proof.
  intros HP H. unfold process_command in H. cbv zeta in H.
  destruct (split c) as [|a0 args]; [injection H as _ <-; exact HP|].
  repeat match type of H with
  | (if ?b then _ else _) _ = _ => destruct b; cbv beta iota delta [andb] in H
  end;
  try (unfold mret, M_ret in H; injection H as _ <-; exact HP);
  try (unfold mbind, M_bind in H;
       match type of H with
       | match ?m with _ => _ end = _ =>
           destruct m as [u s0|] eqn:E; [|discriminate];
           first [ apply display_disk_usage_frame in E as [o ->]
                 | apply show_fat_table_frame in E as [o ->] ];
           unfold mret, M_ret in H; injection H as _ <-; auto
       end);
  first [ eapply P_register; [exact HP|exact H]
         | eapply P_login; [exact HP|exact H]
         | eapply P_logout; [exact HP|exact H]
         | eapply P_dir; [exact HP|exact H]
         | eapply P_create; [exact HP|exact H]
         | eapply P_delete; [exact HP|exact H]
         | eapply P_open; [exact HP|exact H]
         | eapply P_close; [exact HP|exact H]
         | eapply P_read; [exact HP|exact H]
         | eapply P_write; [exact HP|exact H]
         | eapply P_cd; [exact HP|exact H]
         | eapply P_rd; [exact HP|exact H]
         | eapply P_md; [exact HP|exact H] ].
Qed.

End Dispatch.

Lemma process_command_fat_ok c s v s' :
  fat_ok s -> process_command c s = Return v s' -> fat_ok s'.
Proof.
  apply process_command_preserves;
    [ intros ? ? Hs; exact Hs
    | exact register_fat_ok | exact login_fat_ok | exact logout_fat_ok
    | exact dir_fat_ok | exact create_fat_ok | exact delete_fat_ok
    | exact open_fat_ok | exact close_fat_ok | exact read_fat_ok
    | exact write_fat_ok | exact cd_fat_ok | exact rd_fat_ok
    | exact md_fat_ok ].
Qed.

Lemma reachable_fat_ok s : reachable s -> fat_ok s.
Proof.
  induction 1 as [|s c v s' _ IH Hstep].
  - split; [done|constructor].
  - eapply process_command_fat_ok; eauto.
Qed.

Lemma run_commands_reachable cmds s vs s' :
  reachable s -> run_commands cmds s = Return vs s' -> reachable s'.
Proof.
  revert s vs. induction cmds as [|c cmds IH]; intros s vs Hr H; cbn in H.
  - by injection H as _ <-.
  - destruct (process_command c s) as [v s1|] eqn:E; [|discriminate].
    destruct (run_commands cmds s1) as [vs1 s2|] eqn:E2; [|discriminate].
    injection H as _ <-. eapply IH; [|exact E2]. econstructor; eauto.
Qed.

Lemma session_reachable cmds :
  result_of (run_commands cmds init_vfs) <> None -> reachable (session cmds).
Proof.
  unfold session. destruct (run_commands cmds init_vfs) eqn:E; cbn; [|done].
  intros _. eapply run_commands_reachable; [constructor|exact E].
Qed.

(** ** The FAT bounds are non-negative *)

(** In every reachable state the free-space cursor is non-negative and
    every FAT entry [(start, end)] has [0 <= start] and [0 <= end]. *)
Theorem fat_nonneg s :
  reachable s ->
  0 <= next_free_space s /\
  forall f start end_, dget (fat_table s) f = Some (start, end_) -> 0 <= start /\ 0 <= end_.
Proof.
  intros Hr. destruct (reachable_fat_ok s Hr) as [Hn Hf]. split; [done|].
  intros f start end_ E.
  exact (proj1 (List.Forall_forall _ _) Hf _ (dget_In _ _ _ E)).
Qed.

Lemma fat_nonneg_witness :
  0 <= next_free_space (session c3_cmds) /\
  forall f start end_, dget (fat_table (session c3_cmds)) f = Some (start, end_) ->
    0 <= start /\ 0 <= end_.
Proof.
  apply fat_nonneg, session_reachable. vm_compute. discriminate.
Defined.

(** ** The compact [bytearray] is Python's [bytearray] *)

Lemma py_norm_range n k : 0 <= n -> 0 <= py_norm n k <= n.
Proof. unfold py_norm. destruct (k <? 0) eqn:E; [apply Z.ltb_lt in E|apply Z.ltb_ge in E]; lia. Qed.

Lemma ba_len_to_list b : Z.of_nat (length (ba_to_list b)) = ba_len b.
Proof. unfold ba_to_list, ba_len. rewrite length_app, length_replicate. lia. Qed.

Lemma ba_setslice_spec b lo hi r :
  ba_to_list (ba_setslice b lo hi r) = list_setslice (ba_to_list b) lo hi r.
Proof.
  unfold list_setslice. rewrite ba_len_to_list.
  unfold ba_setslice, ba_to_list.
  destruct b as [data z]; cbn [ba_data ba_zeros].
  pose proof (ba_len_nonneg (mkBA data z)) as Hn.
  set (n := ba_len (mkBA data z)) in *.
  assert (Hnd : n = Z.of_nat (length data) + Z.of_N z) by reflexivity.
  set (lo' := py_norm n lo). set (hi' := Z.max lo' (py_norm n hi)).
  pose proof (py_norm_range n lo Hn). pose proof (py_norm_range n hi Hn).
  assert (0 <= lo' <= hi' /\ hi' <= n) as [[Hlo Hlohi] Hhin] by lia.
  destruct (hi' <=? Z.of_nat (length data)) eqn:E.
  - apply Z.leb_le in E. cbn [ba_data ba_zeros].
    rewrite take_app_le by lia. rewrite drop_app_le by lia.
    by rewrite <- !app_assoc.
  - apply Z.leb_gt in E. cbn [ba_data ba_zeros].
    rewrite take_app, take_replicate, drop_app_ge by lia.
    rewrite drop_replicate, <- !app_assoc. f_equal. f_equal.
    + f_equal. lia.
    + f_equal. f_equal. lia.
Qed.

Lemma ba_slice_spec b lo hi : ba_slice b lo hi = list_slice (ba_to_list b) lo hi.
Proof.
  unfold list_slice. rewrite ba_len_to_list.
  unfold ba_slice, ba_to_list.
  destruct b as [data z]; cbn [ba_data ba_zeros].
  pose proof (ba_len_nonneg (mkBA data z)) as Hn.
  set (n := ba_len (mkBA data z)) in *.
  assert (Hnd : n = Z.of_nat (length data) + Z.of_N z) by reflexivity.
  set (lo' := py_norm n lo). set (hi' := Z.max lo' (py_norm n hi)).
  pose proof (py_norm_range n lo Hn). pose proof (py_norm_range n hi Hn).
  assert (0 <= lo' <= hi' /\ hi' <= n) as [[Hlo Hlohi] Hhin] by lia.
  destruct (decide (lo' <= Z.of_nat (length data))).
  - rewrite drop_app_le by lia. rewrite take_app.
    rewrite length_drop, take_replicate. f_equal.
    + f_equal. lia.
  - rewrite drop_app_ge by lia. rewrite drop_ge by lia. cbn.
    rewrite take_nil. cbn. rewrite drop_replicate, take_replicate. f_equal. lia.
Qed.

(** ** C4 *)

(** C4 (at the failing input): after [write a xx] and [write a yy] the FAT
    records [(0, 4)] and the cursor is [4], but the second write assigned
    the two bytes ["yy"] to the four-byte slice [disk_space[0:4]]: the first
    two bytes of the file are overwritten, the buffer has shrunk by two
    bytes, and [disk_space[0:4]] holds ["yy"] followed by two zeros, while
    [read] returns ["xxyy"]. *)
Theorem C4_second_write_splices :
  result_of (run_commands c4_cmds init_vfs) <> None /\
  dget (fat_table (session c4_cmds)) "a" = Some (0, 4) /\
  next_free_space (session c4_cmds) = 4 /\
  ba_len (disk_space (session c4_cmds)) = disk_size - 2 /\
  ba_slice (disk_space (session c4_cmds)) 0 4 = [x79; x79; x00; x00] /\
  result_of (read "a" (session c4_cmds)) = Some (VStr "xxyy").
Proof. vm_compute. split; [discriminate|]. repeat split; reflexivity. Qed.

(** ** What [delete] does *)

Lemma set_stdout_twice o o' s : set_stdout o' (set_stdout o s) = set_stdout o' s.
Proof. by destruct s. Qed.

Lemma prints_only_bind {A B} (m : M A) (k : A -> M B) :
  prints_only m -> (forall a, prints_only (k a)) -> prints_only (m ≫= k).
Proof.
  intros Hm Hk s. destruct (Hm s) as [o Ho]. unfold mbind, M_bind.
  destruct (m s) as [a s0|e s0]; cbn in Ho; subst s0.
  - destruct (Hk a (set_stdout o s)) as [o' Ho']. rewrite set_stdout_twice in Ho'. eauto.
  - eauto.
Qed.

Lemma prints_only_keep {A} (m : M A) :
  (forall s, final_state (m s) = s) -> prints_only m.
Proof. intros H s. exists (stdout s). rewrite H. by destruct s. Qed.

Lemma prints_only_print line : prints_only (print line).
Proof. intros s. eexists. reflexivity. Qed.

Lemma deref_final l s : final_state (deref l s) = s.
Proof. unfold deref. by destruct (heap s !! l). Qed.

Lemma children_of_final l s : final_state (children_of l s) = s.
Proof. unfold children_of, deref. mon. by destruct (heap s !! l) as [[]|]. Qed.

Lemma user_FAT_final s : final_state (user_FAT s) = s.
Proof. unfold user_FAT. mon. destruct (current_user s); [|done]. by destruct (dget _ _). Qed.

Lemma build_file_paths_final fuel d cp s : final_state (_build_file_paths fuel d cp s) = s.
Proof.
  revert d cp. induction fuel as [|fuel IH]; intros d cp; [done|].
  cbn. unfold mbind, M_bind.
  pose proof (children_of_final d s) as Hc.
  destruct (children_of d s) as [ch s0|e s0]; cbn in Hc; subst s0; [|done].
  generalize (@nil (string * string)).
  induction ch as [|[name l] ch IHch]; intros acc; [done|].
  unfold mbind, M_bind.
  pose proof (deref_final l s) as Hd.
  destruct (deref l s) as [n s0|e s0]; cbn in Hd; subst s0; [|done].
  destruct n as [ch'|c]; [|apply IHch].
  pose proof (IH l (cp +:+ "/" +:+ name)) as Hb.
  destruct (_build_file_paths fuel l _ s) as [sub s0|e s0]; cbn in Hb; subst s0; [|done].
  apply IHch.
Qed.

Lemma print_fat_entries_prints_only fp es : prints_only (print_fat_entries fp es).
Proof.
  induction es as [|[fn [st en]] es IH]; cbn; [by apply prints_only_keep|].
  repeat (apply prints_only_bind; intros; [apply prints_only_print|]). apply IH.
Qed.

Lemma show_fat_table_prints_only : prints_only show_fat_table.
Proof.
  unfold show_fat_table.
  apply prints_only_bind; [apply prints_only_keep, user_FAT_final|intros d].
  apply prints_only_bind; [by apply prints_only_keep|intros h].
  apply prints_only_bind; [apply prints_only_keep; intros; apply build_file_paths_final|intros fp].
  apply prints_only_bind; [apply prints_only_print|intros _].
  apply prints_only_bind; [by apply prints_only_keep|intros ft].
  apply print_fat_entries_prints_only.
Qed.

(** [delete] of an entry of the working directory with a FAT record and
    [start <= end]: whether or not the closing [show_fat_table] raises, the
    state is [delete_post] up to the captured output. *)
Lemma delete_present_final s d ch f file_start file_end :
  current_dir s = Some d -> heap s !! d = Some (DirNode ch) -> dmem ch f = true ->
  dget (fat_table s) f = Some (file_start, file_end) -> file_start <= file_end ->
  exists o, final_state (delete f s) = set_stdout o (delete_post f d ch file_start file_end s).
Proof.
  intros Hc Hd Hm Hf Hle.
  unfold delete, cur_children, children_of, deref, set_children, new_bytearray. mon.
  rewrite Hc, Hd. cbn. rewrite Hm. cbn. rewrite Hf. cbn.
  replace (file_end - file_start <? 0) with false by (symmetry; apply Z.ltb_ge; lia). cbn.
  destruct (show_fat_table_prints_only
              (delete_post f d ch file_start file_end s)) as [o Ho].
  exists o. unfold delete_post in *. cbn in *.
  destruct (show_fat_table _) as [u s0|e s0]; cbn in *; by rewrite Ho.
Qed.

(** A [delete] that returns either changed nothing or reached [delete_post]. *)
Lemma delete_Return s f v s' :
  delete f s = Return v s' ->
  s' = s \/
  exists d ch file_start file_end o,
    current_dir s = Some d /\ heap s !! d = Some (DirNode ch) /\
    s' = set_stdout o (delete_post f d ch file_start file_end s).
Proof.
  unfold delete, cur_children, children_of, deref, set_children, new_bytearray. mon.
  destruct (current_dir s) as [d|]; [|discriminate].
  destruct (heap s !! d) as [[ch|c]|] eqn:Hd; cbn; try discriminate.
  destruct (dmem ch f); cbn; [|intros H; injection H as _ <-; by left].
  destruct (dget (fat_table s) f) as [[st en]|]; cbn; [|discriminate].
  destruct (en - st <? 0); cbn; [discriminate|].
  intros H. right.
  destruct (show_fat_table_prints_only (delete_post f d ch st en s)) as [o Ho].
  unfold delete_post in Ho. cbn in Ho.
  destruct (show_fat_table _) as [u s0|e s0] eqn:E; cbn in *; [|discriminate].
  injection H as _ <-. exists d, ch, st, en, o. subst. auto.
Qed.

(** ** The FAT keeps one entry per name *)

Lemma in_keys_dset {V} (d : pydict V) k v k' :
  In k' (map fst (dset d k v)) -> k' = k \/ In k' (map fst d).
Proof.
  induction d as [|[k0 v0] d IH]; cbn; [intuition|].
  destruct (String.eqb k k') eqn:E0;
  destruct (String.eqb k k0) eqn:E; cbn; intuition.
Qed.

Lemma in_keys_ddel {V} (d : pydict V) k k' :
  In k' (map fst (ddel d k)) -> In k' (map fst d).
Proof.
  induction d as [|[k0 v0] d IH]; cbn; [done|].
  destruct (String.eqb k k0); cbn; intuition.
Qed.

Lemma NoDup_dset {V} (d : pydict V) k v :
  NoDup (map fst d) -> NoDup (map fst (dset d k v)).
Proof.
  induction d as [|[k0 v0] d IH]; cbn; intros Hd; [repeat constructor; set_solver|].
  apply NoDup_cons in Hd as [Hn Hd].
  destruct (String.eqb k k0) eqn:E; cbn; apply NoDup_cons; split; auto.
  intros Hin%list_elem_of_In%in_keys_dset. destruct Hin as [->|Hin].
  - by rewrite String.eqb_refl in E.
  - by apply Hn, list_elem_of_In.
Qed.

Lemma NoDup_ddel {V} (d : pydict V) k :
  NoDup (map fst d) -> NoDup (map fst (ddel d k)).
Proof.
  induction d as [|[k0 v0] d IH]; cbn; intros Hd; [constructor|].
  apply NoDup_cons in Hd as [Hn Hd].
  destruct (String.eqb k k0); cbn; [done|]. apply NoDup_cons; split; auto.
  intros Hin%list_elem_of_In%in_keys_ddel. by apply Hn, list_elem_of_In.
Qed.

Ltac keys_solve :=
  unfold fat_keys_unique in *; cbn -[String.eqb] in *;
  repeat first [ apply NoDup_dset | apply NoDup_ddel ]; assumption.

Ltac method_keys :=
  intros HI H; unfold_method H; split_run H; keys_solve.

Lemma register_keys u p s v s' :
  fat_keys_unique s -> register u p s = Return v s' -> fat_keys_unique s'.
Proof. method_keys. Qed.
Lemma login_keys u p s v s' :
  fat_keys_unique s -> login u p s = Return v s' -> fat_keys_unique s'.
Proof. method_keys. Qed.
Lemma logout_keys s v s' : fat_keys_unique s -> logout s = Return v s' -> fat_keys_unique s'.
Proof. method_keys. Qed.
Lemma dir_keys s v s' : fat_keys_unique s -> dir s = Return v s' -> fat_keys_unique s'.
Proof. method_keys. Qed.
Lemma create_keys f s v s' : fat_keys_unique s -> create f s = Return v s' -> fat_keys_unique s'.
Proof. method_keys. Qed.
Lemma delete_keys f s v s' : fat_keys_unique s -> delete f s = Return v s' -> fat_keys_unique s'.
Proof. method_keys. Qed.
Lemma open_keys f s v s' : fat_keys_unique s -> open f s = Return v s' -> fat_keys_unique s'.
Proof. method_keys. Qed.
Lemma close_keys f s v s' : fat_keys_unique s -> close f s = Return v s' -> fat_keys_unique s'.
Proof. method_keys. Qed.
Lemma read_keys f s v s' : fat_keys_unique s -> read f s = Return v s' -> fat_keys_unique s'.
Proof. method_keys. Qed.
Lemma write_keys f c s v s' :
  fat_keys_unique s -> write f c s = Return v s' -> fat_keys_unique s'.
Proof. method_keys. Qed.
Lemma cd_keys f s v s' : fat_keys_unique s -> cd f s = Return v s' -> fat_keys_unique s'.
Proof. method_keys. Qed.
Lemma rd_keys f s v s' : fat_keys_unique s -> rd f s = Return v s' -> fat_keys_unique s'.
Proof. method_keys. Qed.
Lemma md_keys f s v s' : fat_keys_unique s -> md f s = Return v s' -> fat_keys_unique s'.
Proof. method_keys. Qed.

Lemma process_command_keys c s v s' :
  fat_keys_unique s -> process_command c s = Return v s' -> fat_keys_unique s'.
Proof.
  apply process_command_preserves;
    [ intros ? ? Hs; exact Hs
    | exact register_keys | exact login_keys | exact logout_keys
    | exact dir_keys | exact create_keys | exact delete_keys
    | exact open_keys | exact close_keys | exact read_keys
    | exact write_keys | exact cd_keys | exact rd_keys
    | exact md_keys ].
Qed.

Lemma reachable_keys s : reachable s -> fat_keys_unique s.
Proof.
  induction 1 as [|s c v s' _ IH Hstep].
  - constructor.
  - eapply process_command_keys; eauto.
Qed.

(** ** Zero-filling a slice *)

Lemma take_drop_zeros (A B : list byte) k i m :
  (length A <= i)%nat -> (i + m <= length A + k)%nat ->
  Forall (fun b => b = x00) (take m (drop i (A ++ replicate k x00 ++ B))).
Proof.
  intros H1 H2.
  rewrite drop_app_ge by lia. rewrite drop_app_le by (rewrite length_replicate; lia).
  rewrite drop_replicate, take_app_le by (rewrite length_replicate; lia).
  rewrite take_replicate. by apply Forall_replicate.
Qed.

(** [a[lo:hi] = bytearray(hi - lo)] makes [a[lo:hi]] read back as zeros. *)
Lemma list_setslice_zeros a lo hi :
  0 <= lo <= hi ->
  Forall (fun b => b = x00)
    (list_slice (list_setslice a lo hi (replicate (Z.to_nat (hi - lo)) x00)) lo hi).
Proof.
  intros Hle. unfold list_slice, list_setslice, py_norm.
  replace (lo <? 0) with false by (symmetry; apply Z.ltb_ge; lia).
  replace (hi <? 0) with false by (symmetry; apply Z.ltb_ge; lia).
  rewrite !length_app, length_replicate, length_take, length_drop.
  apply take_drop_zeros; rewrite length_take; lia.
Qed.

(** ** Deleting a file with a sound FAT range *)

(** In a reachable state, for a file [f] of the working directory whose
    FAT record is [(start, end)] with [start <= end] (otherwise
    [bytearray(end - start)] raises [ValueError]), [delete(f)] leaves
    [disk_space[start:end]] reading back as zeros, removes [f]'s FAT entry
    and resets the free-space cursor to [start].  This holds of the state
    [delete] leaves, whether or not its closing [show_fat_table] raises. *)
Theorem delete_zero_fills s d ch f l file_start file_end :
  reachable s -> current_dir s = Some d -> heap s !! d = Some (DirNode ch) ->
  dget ch f = Some l -> dget (fat_table s) f = Some (file_start, file_end) ->
  file_start <= file_end ->
  Forall (fun b => b = x00)
    (list_slice (ba_to_list (disk_space (final_state (delete f s)))) file_start file_end) /\
  dget (fat_table (final_state (delete f s))) f = None /\
  next_free_space (final_state (delete f s)) = file_start.
Proof.
  intros Hr Hc Hd Hl Hf Hle.
  destruct (reachable_fat_ok s Hr) as [_ Hok].
  pose proof (proj1 (List.Forall_forall _ _) Hok _ (dget_In _ _ _ Hf)) as [Hs _].
  cbn in Hs.
  pose proof (reachable_keys s Hr) as Hk.
  assert (Hm : dmem ch f = true) by (unfold dmem; by rewrite Hl).
  destruct (delete_present_final s d ch f file_start file_end Hc Hd Hm Hf Hle) as [o ->].
  unfold delete_post. cbn.
  split; [|split; [by apply dget_ddel_eq_None|done]].
  rewrite ba_setslice_spec. apply list_setslice_zeros. lia.
Qed.

Lemma delete_zero_fills_witness :
  Forall (fun b => b = x00)
    (list_slice (ba_to_list (disk_space (final_state (delete "a" (session c5_cmds))))) 0 2) /\
  dget (fat_table (final_state (delete "a" (session c5_cmds)))) "a" = None /\
  next_free_space (final_state (delete "a" (session c5_cmds))) = 0.
Proof.
  apply (delete_zero_fills (session c5_cmds) 1%positive [("a", 2%positive)] "a" 2%positive 0 2).
  - apply session_reachable. vm_compute. discriminate.
  - vm_compute. reflexivity.
  - vm_compute. reflexivity.
  - reflexivity.
  - vm_compute. reflexivity.
  - lia.
Defined.

(** ** C6 *)

Lemma set_current_dir_twice x y s :
  set_current_dir x (set_current_dir y s) = set_current_dir x s.
Proof. by destruct s. Qed.

(** The loop of [_update_current_dir] follows [resolve]. *)
Lemma walk_path_resolve names s d d' :
  current_dir s = Some d -> resolve (heap s) d names = Some d' ->
  walk_path names s = Return tt (set_current_dir (Some d') s).
Proof.
  revert s d. induction names as [|name names IH]; intros s d Hc Hr; cbn in Hr.
  - injection Hr as <-. cbn. unfold mret, M_ret. rewrite <- Hc. by destruct s.
  - cbn. unfold children_of, deref. mon. rewrite Hc.
    destruct (heap s !! d) as [[ch|c]|]; try discriminate. cbn.
    destruct (dget ch name) as [l|]; [|discriminate]. cbn.
    rewrite (IH (set_current_dir (Some l) s) l); [|done|done].
    by rewrite set_current_dir_twice.
Qed.

(** C6: [cd("..")] with an empty path stack returns "Already at the root
    directory." and changes nothing; with a non-empty stack it pops the last
    name and sets the working directory to the directory reached from the
    user's root along the shortened stack. *)
Theorem C6_cd_parent s :
  (path s = [] -> cd ".." s = Return (VStr "Already at the root directory.") s) /\
  (forall u acc d', path s <> [] -> current_user s = Some u -> dget (root s) u = Some acc ->
     resolve (heap s) (acc_FAT acc) (removelast (path s)) = Some d' ->
     cd ".." s = Return (VStr "Returned to the parent directory.")
                        (set_current_dir (Some d') (set_path (removelast (path s)) s))).
Proof.
  split.
  - intros Hp. unfold cd. mon. by rewrite Hp.
  - intros u acc d' Hp Hu Hacc Hr. unfold cd, _update_current_dir, user_FAT. mon.
    destruct (path s) as [|p ps] eqn:Ep; [done|]. cbn -[removelast].
    rewrite Hu, Hacc. cbn -[removelast].
    rewrite <- Ep.
    rewrite (walk_path_resolve (removelast (path s))
               (set_current_dir (Some (acc_FAT acc)) (set_path (removelast (path s)) s))
               (acc_FAT acc) d'); [| done | cbn; by rewrite Ep].
    by rewrite set_current_dir_twice.
Qed.

Lemma C6_cd_parent_witness :
  cd ".." (session c6_cmds)
  = Return (VStr "Returned to the parent directory.")
           (set_current_dir (Some 1%positive) (set_path [] (session c6_cmds))).
Proof.
  apply (proj2 (C6_cd_parent (session c6_cmds)) "u" (mkAccount "u" "p" 1%positive)).
  - vm_compute. discriminate.
  - vm_compute. reflexivity.
  - vm_compute. reflexivity.
  - vm_compute. reflexivity.
Defined.

(** ** C7 *)

(** Case analysis on a command name compared with string literals. *)
Ltac name_cases cmd :=
  repeat match goal with
  | |- context [String.eqb cmd ?x] =>
      let Hne := fresh "Hne" in
      destruct (String.eqb_spec cmd x) as [->|Hne];
      [| try rewrite (proj2 (String.eqb_neq cmd x) Hne) in * ]
  | H : context [String.eqb cmd ?x] |- _ =>
      let Hne := fresh "Hne" in
      destruct (String.eqb_spec cmd x) as [->|Hne];
      [| try rewrite (proj2 (String.eqb_neq cmd x) Hne) in * ]
  end.

(** C7 (amended): a command line whose first token, lowercased, is not a
    command name, or whose token count is not one [process_command]
    dispatches on for that name ([dispatch_accepts]), gets the generic
    "Invalid command or incorrect number of arguments." and leaves the state
    as it was.  [logout], [dir], [diskusage] and [showfat] are dispatched
    whatever the number of tokens. *)
Theorem C7_invalid_command c s a0 rest :
  split c = a0 :: rest ->
  dispatch_accepts (lower a0) (length (a0 :: rest)) = false ->
  process_command c s = Return (VStr invalid_msg) s.
Proof.
  intros Hs Hacc. unfold process_command. rewrite Hs. cbv zeta.
  revert Hacc. generalize (length (a0 :: rest)) as n. generalize (lower a0) as cmd.
  intros cmd n Hacc. unfold dispatch_accepts in Hacc.
  name_cases cmd; cbn in *; try discriminate;
  repeat match goal with
  | H : ?b = false |- context [if ?b then _ else _] => rewrite H; cbn
  end; reflexivity.
Qed.

Lemma C7_invalid_command_witness :
  process_command c7_unknown init_vfs = Return (VStr invalid_msg) init_vfs.
Proof.
  apply (C7_invalid_command c7_unknown init_vfs "frobnicate" ["x"]);
    vm_compute; reflexivity.
Defined.

(** C7 (counterexample): [dir] and [logout] followed by an extra token are
    dispatched all the same: [dir x] lists the working directory and
    [logout x] answers that nobody is logged in. *)
Lemma C7_counterexample :
  result_of (process_command "dir x" (session logged_in_cmds)) = Some (VList []) /\
  result_of (process_command "logout x" init_vfs) = Some (VStr "No user currently logged in.").
Proof. split; vm_compute; reflexivity. Qed.

(** ** C8 *)

(** C8: two command lines whose tokens differ only in the first one, and
    there only up to [str.lower()], run the same: the dispatcher compares
    the lowercased first token. *)
Theorem C8_case_insensitive c c' a a' rest :
  split c = a :: rest -> split c' = a' :: rest -> lower a = lower a' ->
  process_command c = process_command c'.
Proof.
  intros H1 H2 Hl. unfold process_command. rewrite H1, H2. cbv zeta.
  rewrite Hl. reflexivity.
Qed.

Lemma C8_case_insensitive_witness :
  process_command "CREATE f" = process_command "create f".
Proof.
  apply (C8_case_insensitive "CREATE f" "create f" "CREATE" "create" ["f"]);
    vm_compute; reflexivity.
Defined.

(** ** C9 *)

(** C9: for an open file [f] with FAT record [(start, end)] and content
    [c], [write(f, t)] appends the whole of [t] to the file's content, so
    the next [read(f)] returns [c ++ t], while the FAT range ends at
    [min(end + len(t), len(disk_space))]: the disk write may be clipped,
    the content never is. *)
Theorem C9_write_keeps_full_content s f t l c file_start file_end :
  dget (open_files s) f = Some l -> dget (fat_table s) f = Some (file_start, file_end) ->
  heap s !! l = Some (FileNode c) ->
  exists s', write f t s = Return (VStr "Content written to file.") s' /\
    read f s' = Return (VStr (c +:+ t)) s' /\
    dget (fat_table s') f =
      Some (file_start, Z.min (file_end + Z.of_nat (String.length t)) (ba_len (disk_space s))).
Proof.
  intros Ho Hf Hl. eexists. split; [exact (write_spec s f t l c file_start file_end Ho Hf Hl)|].
  unfold write_post. cbn. split.
  - apply (read_spec _ f l); cbn; [exact Ho | apply lookup_insert_eq].
  - apply dget_dset_eq.
Qed.

Lemma C9_write_keeps_full_content_witness :
  exists s', write "a" "zz" (session c5_cmds) = Return (VStr "Content written to file.") s' /\
    read "a" s' = Return (VStr "xyzz") s' /\
    dget (fat_table s') "a" = Some (0, Z.min (2 + 2) (ba_len (disk_space (session c5_cmds)))).
Proof.
  apply (C9_write_keeps_full_content (session c5_cmds) "a" "zz" 2%positive "xy" 0 2);
    vm_compute; reflexivity.
Defined.

(** ** C10 *)

(** C10: a [delete(f)] that returns leaves the open-file table as it was;
    if [f] was open, [read(f)] still returns the content it had and
    [close(f)] still succeeds. *)
Theorem C10_delete_keeps_open s f l c v s' :
  dget (open_files s) f = Some l -> heap s !! l = Some (FileNode c) ->
  delete f s = Return v s' ->
  open_files s' = open_files s /\
  read f s' = Return (VStr c) s' /\
  close f s' = Return (VStr ("File '" +:+ f +:+ "' closed."))
                      (set_open_files (ddel (open_files s) f) s').
Proof.
  intros Ho Hl H.
  assert (Hs' : open_files s' = open_files s /\ heap s' !! l = Some (FileNode c)).
  { apply delete_Return in H as [->|(d & ch & st & en & o & Hc & Hd & ->)]; [done|].
    unfold delete_post. cbn. split; [done|].
    rewrite lookup_insert_ne; [exact Hl|congruence]. }
  destruct Hs' as [Hof Hl']. split; [exact Hof|]. split.
  - apply (read_spec _ f l); [by rewrite Hof|exact Hl'].
  - rewrite <- Hof. apply close_spec. by rewrite Hof, Ho.
Qed.

Lemma C10_delete_keeps_open_witness :
  open_files (final_state (delete "a" (session c5_cmds))) = open_files (session c5_cmds) /\
  read "a" (final_state (delete "a" (session c5_cmds)))
    = Return (VStr "xy") (final_state (delete "a" (session c5_cmds))) /\
  close "a" (final_state (delete "a" (session c5_cmds)))
    = Return (VStr "File 'a' closed.")
             (set_open_files (ddel (open_files (session c5_cmds)) "a")
                             (final_state (delete "a" (session c5_cmds)))).
Proof.
  apply (C10_delete_keeps_open (session c5_cmds) "a" 2%positive "xy"
           (VStr "File 'a' deleted.")).
  - vm_compute. reflexivity.
  - vm_compute. reflexivity.
  - vm_compute. reflexivity.
Defined.

(** * Further properties of the code *)

(** ** Accounts and sessions *)

(** Registering a name that is taken answers "User already exists." and
    changes nothing: the existing account and its password stay. *)
Theorem register_existing_unchanged s u p :
  dmem (root s) u = true -> register u p s = Return (VStr "User already exists.") s.
Proof. intros H. unfold register. mon. by rewrite H. Qed.

Lemma register_existing_unchanged_witness :
  register "u" "q" (session logged_in_cmds)
  = Return (VStr "User already exists.") (session logged_in_cmds).
Proof. apply register_existing_unchanged. vm_compute. reflexivity. Defined.

(** A new user can log in with the password given at registration, and
    lands in a fresh, empty home directory with an empty path. *)
Theorem register_then_login s u p :
  dmem (root s) u = false ->
  exists s1 s2,
    register u p s = Return (VStr ("User '" +:+ u +:+ "' registered successfully.")) s1 /\
    login u p s1 = Return (VStr ("User '" +:+ u +:+ "' logged in successfully.")) s2 /\
    current_user s2 = Some u /\ path s2 = [] /\
    current_dir s2 = Some (fresh (dom (heap s))) /\
    heap s2 !! fresh (dom (heap s)) = Some (DirNode []).
Proof.
  intros H. unfold register, login, alloc. mon. rewrite H. cbn.
  do 2 eexists. split; [reflexivity|]. cbn.
  rewrite dget_dset_eq. cbn. rewrite String.eqb_refl. cbn.
  split; [reflexivity|]. repeat split. apply lookup_insert_eq.
Qed.

Lemma register_then_login_witness :
  exists s1 s2,
    register "v" "w" (session logged_in_cmds)
      = Return (VStr ("User '" +:+ "v" +:+ "' registered successfully.")) s1 /\
    login "v" "w" s1 = Return (VStr ("User '" +:+ "v" +:+ "' logged in successfully.")) s2 /\
    current_user s2 = Some "v" /\ path s2 = [] /\
    current_dir s2 = Some (fresh (dom (heap (session logged_in_cmds)))) /\
    heap s2 !! fresh (dom (heap (session logged_in_cmds))) = Some (DirNode []).
Proof. apply register_then_login. vm_compute. reflexivity. Defined.

(** An unknown user name, or a wrong password, answers "Login failed." and
    changes nothing: the session stays as it was. *)
Theorem login_failed_unchanged s u p :
  match dget (root s) u with
  | None => True
  | Some acc => acc_password acc <> p
  end ->
  login u p s = Return (VStr "Login failed.") s.
Proof.
  intros H. unfold login. mon.
  destruct (dget (root s) u) as [acc|]; [|done].
  destruct (String.eqb_spec (acc_password acc) p); [done|reflexivity].
Qed.

Lemma login_failed_unchanged_witness :
  login "u" "wrong" (session logged_in_cmds)
  = Return (VStr "Login failed.") (session logged_in_cmds).
Proof.
  apply login_failed_unchanged. vm_compute. discriminate.
Defined.

(** [logout] followed by [login] with the right password is a return to
    the home directory: the session differs from the one before only in
    the working directory (the user's root) and the empty path; the trees,
    the FAT, the disk and the open-file table are untouched. *)
Theorem logout_login_home s u acc :
  current_user s = Some u -> u <> "" -> dget (root s) u = Some acc ->
  (logout;; login u (acc_password acc)) s
  = Return (VStr ("User '" +:+ u +:+ "' logged in successfully."))
           (set_path [] (set_current_dir (Some (acc_FAT acc)) s)).
Proof.
  intros Hu Hne Hacc. unfold logout, login. mon. rewrite Hu.
  destruct (String.eqb_spec u "") as [->|_]; [done|]. cbn.
  rewrite Hacc, String.eqb_refl. cbn. by destruct s; cbn in *; subst.
Qed.

Lemma logout_login_home_witness :
  (logout;; login "u" "p") (session c1_cmds)
  = Return (VStr ("User '" +:+ "u" +:+ "' logged in successfully."))
           (set_path [] (set_current_dir (Some 1%positive) (session c1_cmds))).
Proof.
  apply (logout_login_home (session c1_cmds) "u" (mkAccount "u" "p" 1%positive)).
  - vm_compute. reflexivity.
  - discriminate.
  - vm_compute. reflexivity.
Defined.

(** With nobody logged in, [logout] answers "No user currently logged in."
    and changes nothing. *)
Theorem logout_nobody_unchanged s :
  current_user s = None -> logout s = Return (VStr "No user currently logged in.") s.
Proof. intros H. unfold logout. mon. by rewrite H. Qed.

Lemma logout_nobody_unchanged_witness :
  logout init_vfs = Return (VStr "No user currently logged in.") init_vfs.
Proof. apply logout_nobody_unchanged. reflexivity. Defined.

(** [register], [login], [logout] and [close] never raise, in any state:
    they touch neither the working directory nor the heap before
    answering. *)
Theorem session_ops_never_raise s u p f :
  raised (register u p s) = None /\ raised (login u p s) = None /\
  raised (logout s) = None /\ raised (close f s) = None.
Proof.
  unfold register, login, logout, close, alloc. mon.
  repeat split.
  - by destruct (dmem (root s) u).
  - destruct (dget (root s) u) as [acc|]; [|done]. by destruct (String.eqb _ _).
  - destruct (current_user s) as [x|]; [|done]. by destruct (String.eqb x "").
  - by destruct (dmem (open_files s) f).
Qed.

(** ** Files and directories *)

(** [dir] lists the names of the working directory's children, in the
    order they were added, and changes nothing. *)
Theorem dir_lists_children s d ch :
  current_dir s = Some d -> heap s !! d = Some (DirNode ch) ->
  dir s = Return (VList (map fst ch)) s.
Proof.
  intros Hc Hd. unfold dir, cur_children, children_of, deref. mon. rewrite Hc, Hd. reflexivity.
Qed.

Lemma dir_lists_children_witness :
  dir (session c2_cmds) = Return (VList ["d"]) (session c2_cmds).
Proof.
  apply (dir_lists_children (session c2_cmds) 1%positive [("d", 2%positive)]);
    vm_compute; reflexivity.
Defined.

(** [create] of a name the working directory already holds (a file or a
    directory) answers "File already exists." and changes nothing. *)
Theorem create_existing_unchanged s d ch f :
  current_dir s = Some d -> heap s !! d = Some (DirNode ch) -> dmem ch f = true ->
  create f s = Return (VStr "File already exists.") s.
Proof.
  intros Hc Hd Hm. unfold create, cur_children, children_of, deref.
  mon. rewrite Hc, Hd. cbn. rewrite Hm. reflexivity.
Qed.

Lemma create_existing_unchanged_witness :
  create "d" (session c2_cmds) = Return (VStr "File already exists.") (session c2_cmds).
Proof.
  apply (create_existing_unchanged (session c2_cmds) 1%positive [("d", 2%positive)]);
    vm_compute; reflexivity.
Defined.

(** [delete] of a name the working directory does not hold answers
    "File not found." and changes nothing. *)
Theorem delete_absent_unchanged s d ch f :
  current_dir s = Some d -> heap s !! d = Some (DirNode ch) -> dmem ch f = false ->
  delete f s = Return (VStr "File not found.") s.
Proof.
  intros Hc Hd Hm. unfold delete, cur_children, children_of, deref.
  mon. rewrite Hc, Hd. cbn. rewrite Hm. reflexivity.
Qed.

Lemma delete_absent_unchanged_witness :
  delete "zz" (session c2_cmds) = Return (VStr "File not found.") (session c2_cmds).
Proof.
  apply (delete_absent_unchanged (session c2_cmds) 1%positive [("d", 2%positive)]);
    vm_compute; reflexivity.
Defined.

(** [open] of a name the working directory does not hold, or of a name
    already in the open-file table, answers "File not found or already
    opened." and changes nothing. *)
Theorem open_refused_unchanged s d ch f :
  current_dir s = Some d -> heap s !! d = Some (DirNode ch) ->
  dget ch f = None \/ dmem (open_files s) f = true ->
  open f s = Return (VStr "File not found or already opened.") s.
Proof.
  intros Hc Hd H. unfold open, cur_children, children_of, deref.
  mon. rewrite Hc, Hd. cbn.
  destruct H as [H|H]; [by rewrite H|]. destruct (dget ch f); [by rewrite H|done].
Qed.

Lemma open_refused_unchanged_witness :
  open "a" (session c5_cmds)
  = Return (VStr "File not found or already opened.") (session c5_cmds).
Proof.
  apply (open_refused_unchanged (session c5_cmds) 1%positive [("a", 2%positive)]);
    [vm_compute; reflexivity|vm_compute; reflexivity|right; vm_compute; reflexivity].
Defined.

(** [read], [write] and [close] of a name that is not in the open-file
    table answer "File not opened." and change nothing. *)
Theorem not_opened_unchanged s f t :
  dget (open_files s) f = None ->
  read f s = Return (VStr "File not opened.") s /\
  write f t s = Return (VStr "File not opened.") s /\
  close f s = Return (VStr "File not opened.") s.
Proof.
  intros Ho. unfold read, write, close. mon.
  rewrite Ho, (proj2 (dmem_dget _ f) Ho). repeat split; reflexivity.
Qed.

Lemma not_opened_unchanged_witness :
  read "a" (session c2_cmds) = Return (VStr "File not opened.") (session c2_cmds) /\
  write "a" "t" (session c2_cmds) = Return (VStr "File not opened.") (session c2_cmds) /\
  close "a" (session c2_cmds) = Return (VStr "File not opened.") (session c2_cmds).
Proof. apply not_opened_unchanged. vm_compute. reflexivity. Defined.

(** [md] of a name the working directory already holds answers
    "Directory already exists." and changes nothing. *)
Theorem md_existing_unchanged s d ch x :
  current_dir s = Some d -> heap s !! d = Some (DirNode ch) -> dmem ch x = true ->
  md x s = Return (VStr "Directory already exists.") s.
Proof.
  intros Hc Hd Hm. unfold md, cur_children, children_of, deref.
  mon. rewrite Hc, Hd. cbn. rewrite Hm. reflexivity.
Qed.

Lemma md_existing_unchanged_witness :
  md "d" (session c2_cmds) = Return (VStr "Directory already exists.") (session c2_cmds).
Proof.
  apply (md_existing_unchanged (session c2_cmds) 1%positive [("d", 2%positive)]);
    vm_compute; reflexivity.
Defined.

(** [md] of a new name allocates a fresh, empty directory and links it as
    the last child of the working directory; nothing else changes. *)
Theorem md_new_dir s d ch x :
  current_dir s = Some d -> heap s !! d = Some (DirNode ch) -> dget ch x = None ->
  md x s = Return (VStr ("Directory '" +:+ x +:+ "' created."))
    (set_heap (<[d := DirNode (dset ch x (fresh (dom (heap s))))]>
                 (<[fresh (dom (heap s)) := DirNode []]> (heap s))) s).
Proof.
  intros Hc Hd Hx. unfold md, cur_children, children_of, deref, alloc, set_children.
  mon. rewrite Hc, Hd. cbn. rewrite (proj2 (dmem_dget ch x) Hx). cbn.
  rewrite Hc. cbn. rewrite lookup_insert_ne; [|by eapply fresh_loc_ne]. rewrite Hd. cbn.
  reflexivity.
Qed.

Lemma md_new_dir_witness :
  md "e" (session c2_cmds)
  = Return (VStr ("Directory '" +:+ "e" +:+ "' created."))
      (set_heap (<[1%positive := DirNode (dset [("d", 2%positive)] "e"
                                           (fresh (dom (heap (session c2_cmds)))))]>
                   (<[fresh (dom (heap (session c2_cmds))) := DirNode []]>
                      (heap (session c2_cmds)))) (session c2_cmds)).
Proof.
  apply (md_new_dir (session c2_cmds) 1%positive [("d", 2%positive)] "e");
    vm_compute; reflexivity.
Defined.

(** [rd] of a child directory unlinks it from the working directory, with
    whatever it contains; nothing else changes. *)
Theorem rd_dir_removes s d ch x l c :
  current_dir s = Some d -> heap s !! d = Some (DirNode ch) -> dget ch x = Some l ->
  heap s !! l = Some (DirNode c) ->
  rd x s = Return (VStr ("Directory '" +:+ x +:+ "' deleted."))
             (set_heap (<[d := DirNode (ddel ch x)]> (heap s)) s).
Proof.
  intros Hc Hd Hx Hl. unfold rd, cur_children, children_of, deref, set_children.
  mon. rewrite Hc, Hd. cbn. rewrite Hx. cbn. rewrite Hl. reflexivity.
Qed.

Lemma rd_dir_removes_witness :
  rd "d" (session c2_cmds)
  = Return (VStr ("Directory '" +:+ "d" +:+ "' deleted."))
      (set_heap (<[1%positive := DirNode (ddel [("d", 2%positive)] "d")]>
                   (heap (session c2_cmds))) (session c2_cmds)).
Proof.
  apply (rd_dir_removes (session c2_cmds) 1%positive [("d", 2%positive)] "d" 2%positive []);
    vm_compute; reflexivity.
Defined.



(** * Claims the code breaks *)

(** ** C2 *)

(** C2 (at the failing input): with user [u] logged in and a directory [d]
    made in its home, [delete("d")] checks only that [d] is a child, unlinks
    it, and then raises [KeyError] at [self.fat_table["d"]]: no outcome value
    is returned, and [d] is gone from the listing all the same.  With nobody
    logged in, [dir] raises [TypeError]. *)
Theorem C2_delete_dir_raises :
  runs_to c2_cmds (fun s =>
    result_of (dir s) = Some (VList ["d"]) /\
    raised (delete "d" s) = Some KeyError /\
    result_of (dir (final_state (delete "d" s))) = Some (VList [])) /\
  raised (process_command "dir" init_vfs) = Some TypeError.
Proof. vm_compute. repeat split; reflexivity. Qed.

(** ** C3 *)

(** C3 (at the failing inputs): after [shrink_cmds] the FAT holds
    [b = (1448, 948)], with [start > end], and the buffer is 948 bytes long,
    so [a = (0, 1448)] ends beyond it; after [c3_cmds] the distinct files [a]
    and [b] share the range [(0, 1)]. *)
Theorem C3_fat_bounds_fail :
  runs_to shrink_cmds (fun s =>
    dget (fat_table s) "a" = Some (0, 1448) /\
    dget (fat_table s) "b" = Some (1448, 948) /\
    ba_len (disk_space s) = 948) /\
  runs_to c3_cmds (fun s =>
    dget (fat_table s) "a" = Some (0, 1) /\
    dget (fat_table s) "b" = Some (0, 1)).
Proof. vm_compute. repeat split; reflexivity. Qed.

(** ** C5 *)

(** C5 (at the failing input): after [shrink_cmds], [b] is in the working
    directory with FAT record [(1448, 948)]; [delete("b")] unlinks it and
    then raises [ValueError] at [bytearray(948 - 1448)]: nothing is
    zero-filled, [b]'s FAT entry stays and the cursor stays at 948. *)
Theorem C5_delete_raises_after_shrink :
  runs_to shrink_cmds (fun s =>
    result_of (dir s) = Some (VList ["a"; "b"]) /\
    raised (delete "b" s) = Some ValueError /\
    dget (fat_table (final_state (delete "b" s))) "b" = Some (1448, 948) /\
    next_free_space (final_state (delete "b" s)) = 948).
Proof. vm_compute. repeat split; reflexivity. Qed.
